(** * Kubernetes service discovery: API configuration cache and fetch client

    A shallow embedding of [lib/promscrape/discovery/kubernetes/api.go]
    ([getAPIConfig], [newAPIConfig], [newHostClient], [getAPIResponse]) and of
    the library functions it calls, with the properties the specification
    states about them.

    Go strings and byte slices are both modelled as [string] (a sequence of
    8-bit characters).  Functions returning [(value, error)] return a
    [result].  The process environment and the file system are an explicit
    [World]; the package-level [configMap] and the allocation of [apiConfig]
    objects are an explicit [Store] threaded through a small state monad. *)

From Stdlib Require Import ZArith Ascii.
From stdpp Require Import base option countable gmap strings list.

Local Open Scope Z_scope.

(** ** Go strings *)

Module Strings.

(** [len(s)] *)
Definition len (s : string) : nat := String.length s.

(** [s[n:]] *)
Fixpoint from (n : nat) (s : string) : string :=
  match n, s with
  | O, _ => s
  | S n', String _ s' => from n' s'
  | S _, EmptyString => EmptyString
  end.

(** [s[:n]] *)
Fixpoint upto (n : nat) (s : string) : string :=
  match n, s with
  | O, _ => EmptyString
  | S n', String c s' => String c (upto n' s')
  | S _, EmptyString => EmptyString
  end.

(** [strings.HasPrefix(s, p)] *)
Fixpoint HasPrefix (s p : string) {struct p} : bool :=
  match p, s with
  | EmptyString, _ => true
  | String _ _, EmptyString => false
  | String a p', String b s' => Ascii.eqb a b && HasPrefix s' p'
  end.

(** [strings.Index(s, sub)]: position of the first occurrence, [None]
    standing for Go's [-1]. *)
Fixpoint Index (s sub : string) : option nat :=
  if HasPrefix s sub then Some O
  else match s with
       | EmptyString => None
       | String _ s' => S <$> Index s' sub
       end.

(** [strings.IndexByte(s, c)] *)
Fixpoint IndexByte (s : string) (c : ascii) : option nat :=
  match s with
  | EmptyString => None
  | String a s' => if Ascii.eqb a c then Some O else S <$> IndexByte s' c
  end.

(** [strings.Contains(s, sub)] is [Index(s, sub) >= 0]. *)
Definition Contains (s sub : string) : bool :=
  bool_decide (is_Some (Index s sub)).

(** The last byte of [s], if any: [s[len(s)-1]]. *)
Fixpoint last (s : string) : option ascii :=
  match s with
  | EmptyString => None
  | String c EmptyString => Some c
  | String _ s' => last s'
  end.

(** ASCII lower-casing of one byte, as fasthttp's [lowercaseBytes] does
    through its table: only ['A'..'Z'] change. *)
Definition lowerByte (c : ascii) : ascii :=
  let n := nat_of_ascii c in
  if (Nat.leb 65 n && Nat.leb n 90)%bool then ascii_of_nat (n + 32) else c.

Fixpoint lowercase (s : string) : string :=
  match s with
  | EmptyString => EmptyString
  | String c s' => String (lowerByte c) (lowercase s')
  end.

End Strings.

(** ** Errors and results *)

(** An error built by [fmt.Errorf]: the format string and its operands, kept
    apart so that what an error carries can be inspected without rendering
    Go's verbs.  Errors of the collaborators are [Errorf] values too. *)
Inductive error : Type :=
| Errorf (format : string) (args : list fmtArg)
with fmtArg : Type :=
| ArgString (s : string)
| ArgInt (n : Z)
| ArgBytes (b : string)
| ArgError (e : error).

Definition format_of (e : error) : string :=
  match e with Errorf f _ => f end.

Definition args_of (e : error) : list fmtArg :=
  match e with Errorf _ a => a end.

(** The error carries [a] as one of its operands. *)
Definition carries (e : error) (a : fmtArg) : Prop := a ∈ args_of e.

(** The text of the error names [what]. *)
Definition names (e : error) (what : string) : bool :=
  Strings.Contains (format_of e) what.

Inductive result (A : Type) : Type :=
| Ok (a : A)
| Err (e : error).
Arguments Ok {A} a.
Arguments Err {A} e.

(** [v, err := f(); if err != nil { return nil, fmt.Errorf(format, err) }] *)
Definition wrapErr {A} (r : result A) (mk : error -> error) : result A :=
  match r with
  | Ok a => Ok a
  | Err e => Err (mk e)
  end.

(** ** Configuration types

    [SDConfig], [Namespaces], [Selector] (package kubernetes) and
    [BasicAuthConfig], [TLSConfig] (package promauth) are declared outside
    [api.go]; the records carry the fields [api.go] reads or writes, the
    remaining fields of the two promauth structs being zero in the literal
    [promauth.TLSConfig{CAFile: ...}] of [newHostClient].  Pointer-typed
    fields ([*BasicAuthConfig], [*TLSConfig]) are options: [None] is [nil]. *)

Record BasicAuthConfig := mkBasicAuth {
  Username : string;
  Password : string;
  PasswordFile : string
}.

Record TLSConfig := mkTLS {
  CAFile : string;
  CertFile : string;
  KeyFile : string;
  ServerName : string;
  InsecureSkipVerify : bool
}.

Record Selector := mkSelector {
  selRole : string;
  selLabel : string;
  selField : string
}.

Record Namespaces := mkNamespaces {
  Names : list string
}.

Record SDConfig := mkSDConfig {
  APIServer : string;
  BasicAuth : option BasicAuthConfig;
  BearerToken : string;
  BearerTokenFile : string;
  TLS : option TLSConfig;
  NamespacesOf : Namespaces;
  Selectors : list Selector
}.

Global Instance BasicAuthConfig_eq_dec : EqDecision BasicAuthConfig.
Proof. solve_decision. Defined.
Global Instance TLSConfig_eq_dec : EqDecision TLSConfig.
Proof. solve_decision. Defined.
Global Instance Selector_eq_dec : EqDecision Selector.
Proof. solve_decision. Defined.
Global Instance Namespaces_eq_dec : EqDecision Namespaces.
Proof. solve_decision. Defined.
Global Instance SDConfig_eq_dec : EqDecision SDConfig.
Proof. solve_decision. Defined.

Global Instance BasicAuthConfig_countable : Countable BasicAuthConfig.
Proof.
  refine (inj_countable' (fun b => (Username b, Password b, PasswordFile b))
            (fun t => match t with (u, p, f) => mkBasicAuth u p f end) _).
  by intros [].
Defined.

Global Instance TLSConfig_countable : Countable TLSConfig.
Proof.
  refine (inj_countable'
            (fun t => (CAFile t, CertFile t, KeyFile t, ServerName t,
                       InsecureSkipVerify t))
            (fun t => match t with (a, b, c, d, e) => mkTLS a b c d e end) _).
  by intros [].
Defined.

Global Instance Selector_countable : Countable Selector.
Proof.
  refine (inj_countable' (fun s => (selRole s, selLabel s, selField s))
            (fun t => match t with (r, l, f) => mkSelector r l f end) _).
  by intros [].
Defined.

Global Instance Namespaces_countable : Countable Namespaces.
Proof.
  refine (inj_countable' Names mkNamespaces _).
  by intros [].
Defined.

Global Instance SDConfig_countable : Countable SDConfig.
Proof.
  refine (inj_countable'
            (fun c => (APIServer c, BasicAuth c, BearerToken c,
                       BearerTokenFile c, TLS c, NamespacesOf c, Selectors c))
            (fun t => match t with
                      | (a, b, c, d, e, f, g) => mkSDConfig a b c d e f g
                      end) _).
  by intros [].
Defined.

(** ** The process environment *)

(** Environment variables and readable files of the process.  The world is
    an argument of everything that consults it, so that two calls may see
    different worlds. *)
Record World := mkWorld {
  env : gmap string string;
  files : gmap string string
}.

(** [os.Getenv]: the value of the variable, empty when it is not set. *)
Definition Getenv (w : World) (key : string) : string :=
  default "" (env w !! key).

(** ** Library functions used by [newHostClient] *)

Module Net.

(** Go's [net.JoinHostPort]: a host with a colon in it is taken for an
    IPv6 literal and put in brackets. *)
Definition JoinHostPort (host port : string) : string :=
  if bool_decide (is_Some (Strings.IndexByte host ":"%char))
  then "[" +:+ host +:+ "]:" +:+ port
  else host +:+ ":" +:+ port.

End Net.

Module URI.
Import Strings.

(** The two components of a [fasthttp.URI] that [api.go] reads. *)
Record t := mk {
  scheme : string;
  host : string
}.

(** The zero value, [var u fasthttp.URI]. *)
Definition zero : t := mk "" "".

(** Modelled from the spec: [fasthttp.URI] ([Update], [Scheme], [Host]) is
    vendored code that is not among the sources; the spec says that the
    host:port is derived from the authority of the server URL and that the
    scheme decides whether the connection is secure.  [splitHostURI] cuts
    an absolute URL at its first ["//"]: the scheme is what precedes it
    (less a final colon), the authority runs up to the next ['/'], or up
    to a ['?'] when no slash follows. *)
Definition splitHostURI (h uri : string) : string * string * string :=
  match Index uri "//" with
  | None => ("http", h, uri)
  | Some n =>
      let sch := upto n uri in
      if bool_decide (is_Some (IndexByte sch "/"%char)) then ("http", h, uri)
      else
        let sch := if bool_decide (last sch = Some ":"%char)
                   then upto (len sch - 1) sch else sch in
        let rest := from (n + 2) uri in
        match IndexByte rest "/"%char with
        | Some m => (sch, upto m rest, from m rest)
        | None =>
            match IndexByte rest "?"%char with
            | Some m => (sch, upto m rest, from m rest)
            | None => (sch, rest, "/")
            end
        end
  end.

(** Modelled from the spec: [URI.Parse(nil, uri)], which stores the scheme
    and the authority in lower case. *)
Definition Parse (uri : string) : t :=
  match splitHostURI "" uri with
  | (sch, h, _) => mk (lowercase sch) (lowercase h)
  end.

(** Modelled from the spec: [URI.Update] on the zero URI.  Only an
    absolute URL (one with ["//"] in it) has an authority; every other
    form is resolved against the empty scheme and host. *)
Definition Update (newURI : string) : t :=
  if bool_decide (len newURI = 0%nat) then zero
  else if Contains newURI "//" then Parse newURI
  else match newURI with
       | String "?"%char _ | String "#"%char _ => zero
       | String "/"%char _ => Parse ("http://" +:+ newURI)
       | _ => Parse ("http:///" +:+ newURI)
       end.

(** Modelled from the spec: [URI.Scheme], where an empty scheme reads as
    ["http"]. *)
Definition Scheme (u : t) : string :=
  if bool_decide (len (scheme u) = 0%nat) then "http" else scheme u.

(** Modelled from the spec: [URI.Host], the authority as it was parsed. *)
Definition Host (u : t) : string := host u.

End URI.

(** ** Collaborators

    What [api.go] calls but does not define, and which no property below
    needs opened: the promauth configuration object and its constructor,
    the IPv6 switch of netutil, fasthttp's gunzip and request URI, and the
    selector query of package kubernetes. *)
Class Platform := {
  (** [promauth.Config] *)
  Config : Type;
  (** its field [Authorization] *)
  Authorization : Config -> string;
  (** [crypto/tls.Config] *)
  tlsConfig : Type;
  (** the method [NewTLSConfig] of [promauth.Config] *)
  NewTLSConfig : Config -> tlsConfig;
  (** [promauth.NewConfig(baseDir, basicAuth, bearerToken, bearerTokenFile,
      tlsConfig)], which reads the files it is pointed at *)
  NewConfig : World -> string -> option BasicAuthConfig -> string -> string ->
              option TLSConfig -> result Config;
  (** [netutil.TCP6Enabled()] *)
  TCP6Enabled : bool;
  (** [fasthttp.AppendGunzipBytes(dst, src)] *)
  AppendGunzipBytes : string -> string -> result string;
  (** [joinSelectors(role, namespaces, selectors)] *)
  joinSelectors : string -> list string -> list Selector -> string;
  (** [URI.RequestURI] of the URI updated with the given URL *)
  RequestURI : string -> string
}.

(** [time.Second] and [time.Minute], in nanoseconds. *)
Definition Second : Z := 1000000000.
Definition Minute : Z := 60 * Second.

(** The fields of [fasthttp.HostClient] that [newHostClient] sets. *)
Record HostClient `{Platform} := mkHostClient {
  Addr : string;
  Name : string;
  DialDualStack : bool;
  IsTLS : bool;
  TLSConfigOf : option tlsConfig;
  ReadTimeout : Z;
  WriteTimeout : Z;
  MaxResponseBodySize : Z
}.

Record hcValue `{Platform} := mkHcValue {
  hc : HostClient;
  ac : option Config;
  apiServer : string;
  hcHostPort : string
}.

(** [apiConfig] contains config for API server. *)
Record apiConfig `{Platform} := mkApiConfig {
  client : HostClient;
  server : string;
  hostPort : string;
  authConfig : option Config;
  namespaces : list string;
  selectors : list Selector
}.

(** ** [newHostClient] *)

Definition caFilePath : string :=
  "/var/run/secrets/kubernetes.io/serviceaccount/ca.crt".
Definition tokenFilePath : string :=
  "/var/run/secrets/kubernetes.io/serviceaccount/token".

Definition errNoHost : error :=
  Errorf ("cannot find KUBERNETES_SERVICE_HOST env var; it must be defined when running in k8s; "
          +:+ "probably, `kubernetes_sd_config->api_server` is missing in Prometheus configs?") [].

Definition errNoPort (host : string) : error :=
  Errorf ("cannot find KUBERNETES_SERVICE_PORT env var; it must be defined when running in k8s; "
          +:+ "KUBERNETES_SERVICE_HOST=%q") [ArgString host].

Definition errServiceAccount (e : error) : error :=
  Errorf "cannot initialize service account auth: %s; probably, `kubernetes_sd_config->api_server` is missing in Prometheus configs?"
         [ArgError e].

(** The first block of [newHostClient]: with no API server configured, the
    server and the auth config come from the pod's environment. *)
Definition discover `{Platform} (w : World) (apiServer : string)
    (ac : option Config) : result (string * option Config) :=
  if bool_decide (Strings.len apiServer = 0%nat) then
    let host := Getenv w "KUBERNETES_SERVICE_HOST" in
    let port := Getenv w "KUBERNETES_SERVICE_PORT" in
    if bool_decide (Strings.len host = 0%nat) then Err errNoHost
    else if bool_decide (Strings.len port = 0%nat) then Err (errNoPort host)
    else
      let apiServer := "https://" +:+ Net.JoinHostPort host port in
      let tlsConfig := mkTLS caFilePath "" "" "" false in
      match NewConfig w "/" None "" tokenFilePath (Some tlsConfig) with
      | Err err => Err (errServiceAccount err)
      | Ok acNew => Ok (apiServer, Some acNew)
      end
  else Ok (apiServer, ac).

Definition newHostClient `{Platform} (w : World) (apiServer : string)
    (ac : option Config) : result hcValue :=
  match discover w apiServer ac with
  | Err err => Err err
  | Ok (apiServer, ac) =>
      let u := URI.Update apiServer in
      let hostPort := URI.Host u in
      let isTLS := bool_decide (URI.Scheme u = "https") in
      let tlsCfg := match ac with
                    | Some a => if isTLS then Some (NewTLSConfig a) else None
                    | None => None
                    end in
      let hostPort :=
        if negb (Strings.Contains hostPort ":") then
          let port := if isTLS then "443" else "80" in
          Net.JoinHostPort hostPort port
        else hostPort in
      let hc := {| Addr := hostPort;
                   Name := "vm_promscrape/discovery";
                   DialDualStack := TCP6Enabled;
                   IsTLS := isTLS;
                   TLSConfigOf := tlsCfg;
                   ReadTimeout := Minute;
                   WriteTimeout := 10 * Second;
                   MaxResponseBodySize := 300 * 1024 * 1024 |} in
      Ok {| hc := hc; ac := ac; apiServer := apiServer; hcHostPort := hostPort |}
  end.

(** ** The store: configuration cache and allocated objects *)

(** A [*SDConfig]: the address the pointer holds and the value it points
    to.  Two pointers may differ in [addr] and agree in [deref]. *)
Record SDConfigRef := mkRef {
  addr : nat;
  deref : SDConfig
}.
Coercion deref : SDConfigRef >-> SDConfig.

(** A [*apiConfig] is the index of the object in [heap]; equal pointers are
    the identical instance.  [constructions] is a ghost log, not program
    state: the configurations [newAPIConfig] was run for, latest first. *)
Record Store `{Platform} := mkStore {
  configMap : gmap SDConfig nat;
  heap : list apiConfig;
  constructions : list SDConfig
}.

Definition emptyStore `{Platform} : Store := mkStore _ ∅ [] [].

(** Computations that read and update the store and may fail. *)
Definition M `{Platform} (A : Type) : Type := Store -> result A * Store.

Definition ret `{Platform} {A} (a : A) : M A := fun st => (Ok a, st).

Definition bind `{Platform} {A B} (m : M A) (k : A -> M B) : M B :=
  fun st =>
    match m st with
    | (Ok a, st') => k a st'
    | (Err e, st') => (Err e, st')
    end.

Definition lift `{Platform} {A} (r : result A) : M A := fun st => (r, st).

Notation "'let*' x := m 'in' k" := (bind m (fun x => k))
  (at level 10, x name, m at level 100, k at level 200).

(** [&apiConfig{...}]: a fresh object, at the next free index. *)
Definition new `{Platform} (cfg : apiConfig) : M nat :=
  fun st => (Ok (length (heap st)),
             mkStore _ (configMap st) (heap st ++ [cfg]) (constructions st)).

(** Ghost step: note that a construction for [sdc] has started. *)
Definition logConstruction `{Platform} (sdc : SDConfig) : M unit :=
  fun st => (Ok tt, mkStore _ (configMap st) (heap st) (sdc :: constructions st)).

Module ConfigMap.

(** The identity of a configuration: all its fields, by value. *)
Definition identity (key : SDConfigRef) : SDConfig := deref key.

(** Modelled from the spec: [discoveryutils.ConfigMap.Get] is not among
    the sources.  The spec has it derive the identity key from the fields
    of the configuration it is given, return the entry stored under that
    identity if there is one, and otherwise run the builder, storing a
    success for good and leaving no entry behind a failure. *)
Definition Get `{Platform} (key : SDConfigRef) (newConfig : M nat) : M nat :=
  fun st =>
    match configMap st !! identity key with
    | Some v => (Ok v, st)
    | None =>
        match newConfig st with
        | (Ok v, st') =>
            (Ok v, mkStore _ (<[identity key := v]> (configMap st'))
                           (heap st') (constructions st'))
        | (Err err, st') => (Err err, st')
        end
    end.

End ConfigMap.

(** ** [newAPIConfig] and [getAPIConfig] *)

Definition errParseAuth (err : error) : error :=
  Errorf "cannot parse auth config: %s" [ArgError err].

Definition errCreateClient (apiServer : string) (err : error) : error :=
  Errorf "cannot create HTTP client for %q: %s" [ArgString apiServer; ArgError err].

(** The object [newAPIConfig] builds from the configuration and the host
    client: the literal [&apiConfig{...}]. *)
Definition apiConfigOf `{Platform} (sdc : SDConfig) (hcv : hcValue) : apiConfig :=
  {| client := hc hcv;
     server := apiServer hcv;
     hostPort := hcHostPort hcv;
     authConfig := ac hcv;
     namespaces := Names (NamespacesOf sdc);
     selectors := Selectors sdc |}.

Definition newAPIConfig `{Platform} (w : World) (sdc : SDConfigRef)
    (baseDir : string) : M nat :=
  let* _started := logConstruction sdc in
  let* ac0 := lift (wrapErr (NewConfig w baseDir (BasicAuth sdc) (BearerToken sdc)
                               (BearerTokenFile sdc) (TLS sdc)) errParseAuth) in
  let* hcv := lift (wrapErr (newHostClient w (APIServer sdc) (Some ac0))
                      (errCreateClient (APIServer sdc))) in
  new (apiConfigOf sdc hcv).

Definition getAPIConfig `{Platform} (w : World) (sdc : SDConfigRef)
    (baseDir : string) : M nat :=
  ConfigMap.Get sdc (newAPIConfig w sdc baseDir).

(** ** [getAPIResponse] *)

Definition StatusOK : Z := 200.

Record Request := mkRequest {
  reqURI : string;
  reqHost : string;
  reqHeader : list (string * string)
}.

Record Response := mkResponse {
  StatusCode : Z;
  respHeader : list (string * string);
  Body : string
}.

(** [Header.Set(key, value)]: the header holds one value under [key]. *)
Definition Set_ (key value : string) (h : list (string * string))
    : list (string * string) :=
  filter (fun kv => kv.1 ≠ key) h ++ [(key, value)].

(** [Header.Peek(key)]: the value under [key], empty when there is none. *)
Fixpoint Peek (h : list (string * string)) (key : string) : string :=
  match h with
  | [] => ""
  | (k, v) :: h' => if bool_decide (k = key) then v else Peek h' key
  end.

(** The URL [getAPIResponse] requests: the server, the path and, when it is
    not empty, the selector query. *)
Definition requestURLOf `{Platform} (cfg : apiConfig) (role path : string) : string :=
  let query := joinSelectors role (namespaces cfg) (selectors cfg) in
  let path := if bool_decide (0 < Strings.len query)%nat
              then path +:+ "?" +:+ query else path in
  server cfg +:+ path.

(** The request [getAPIResponse] sends. *)
Definition requestOf `{Platform} (cfg : apiConfig) (role path : string) : Request :=
  let requestURL := requestURLOf cfg role path in
  let h := Set_ "Accept-Encoding" "gzip" [] in
  let h := match authConfig cfg with
           | Some a => if bool_decide (Authorization a ≠ "")
                       then Set_ "Authorization" (Authorization a) h else h
           | None => h
           end in
  mkRequest (RequestURI requestURL) (hostPort cfg) h.

Definition errFetch (requestURL : string) (err : error) : error :=
  Errorf "cannot fetch %q: %s" [ArgString requestURL; ArgError err].

Definition errUngzip (requestURL : string) (err : error) : error :=
  Errorf "cannot ungzip response from %q: %s" [ArgString requestURL; ArgError err].

Definition errStatus (requestURL : string) (statusCode : Z) (data : string) : error :=
  Errorf "unexpected status code returned from %q: %d; expecting %d; response body: %q"
         [ArgString requestURL; ArgInt statusCode; ArgInt StatusOK; ArgBytes data].

(** The body of the response as [getAPIResponse] hands it on: gunzipped when
    the response says it is gzip-encoded, copied otherwise. *)
Definition decodeBody `{Platform} (requestURL : string) (resp : Response)
    : result string :=
  if bool_decide (Peek (respHeader resp) "Content-Encoding" = "gzip") then
    wrapErr (AppendGunzipBytes "" (Body resp)) (errUngzip requestURL)
  else Ok ("" +:+ Body resp).

(** [do] is the network as the client sees it: [cfg.client.Do(&req, &resp)]. *)
Definition getAPIResponse `{Platform}
    (do : HostClient -> Request -> result Response)
    (cfg : apiConfig) (role path : string) : result string :=
  let requestURL := requestURLOf cfg role path in
  match do (client cfg) (requestOf cfg role path) with
  | Err err => Err (errFetch requestURL err)
  | Ok resp =>
      match decodeBody requestURL resp with
      | Err err => Err err
      | Ok data =>
          let statusCode := StatusCode resp in
          if bool_decide (statusCode <> StatusOK)
          then Err (errStatus requestURL statusCode data)
          else Ok data
      end
  end.

(** ** Sequences of calls *)

(** One call of [getAPIConfig]: the world it runs in and its arguments. *)
Record call := mkCall {
  callWorld : World;
  callSdc : SDConfigRef;
  callBaseDir : string
}.

(** The calls made one after the other, each on the store the previous one
    left; the results come in the order of the calls. *)
Fixpoint getAPIConfigs `{Platform} (calls : list call) (st : Store)
    : list (result nat) * Store :=
  match calls with
  | [] => ([], st)
  | c :: cs =>
      match getAPIConfig (callWorld c) (callSdc c) (callBaseDir c) st with
      | (r, st') =>
          match getAPIConfigs cs st' with
          | (rs, st'') => (r :: rs, st'')
          end
      end
  end.

(** Ghost count: how many times [newAPIConfig] was run for identity [c]. *)
Definition runsFor `{Platform} (c : SDConfig) (st : Store) : nat :=
  length (filter (fun c' => c' = c) (constructions st)).

(** ** Notions of the specification *)

Module Spec.

(** The spec's "explicit port" of a host component, read as the URL syntax
    has it: a port is what follows the colon after the host, and the
    colons inside a bracketed IPv6 literal are part of the host. *)
Definition explicitPort (hostComponent : string) : bool :=
  match hostComponent with
  | String "["%char _ => Strings.Contains hostComponent "]:"
  | _ => Strings.Contains hostComponent ":"
  end.

(** The spec's "fetch returns data successfully". *)
Definition succeeds (r : result string) : Prop := exists data, r = Ok data.

End Spec.

(** ** A concrete platform

    A small instance of the collaborators, on which the functions above can
    be run: an auth config is an authorization header and the text of a root
    CA, both taken from the world's files; the gunzip accepts a payload
    framed by the two gzip magic bytes. *)
Module Sample.

Record AuthMaterial := mkAuth {
  header : string;
  rootCA : string
}.

Definition readFile (w : World) (baseDir path : string) : result string :=
  let p := if Strings.HasPrefix path "/" then path else baseDir +:+ "/" +:+ path in
  match files w !! p with
  | Some content => Ok content
  | None => Err (Errorf "cannot read %q" [ArgString p])
  end.

Definition authHeader (w : World) (baseDir : string)
    (basicAuth : option BasicAuthConfig) (bearerToken bearerTokenFile : string)
    : result string :=
  if bool_decide (bearerTokenFile ≠ "") then
    match readFile w baseDir bearerTokenFile with
    | Ok token => Ok ("Bearer " +:+ token)
    | Err e => Err e
    end
  else if bool_decide (bearerToken ≠ "") then Ok ("Bearer " +:+ bearerToken)
  else match basicAuth with
       | Some b => Ok ("Basic " +:+ Username b +:+ ":" +:+ Password b)
       | None => Ok ""
       end.

Definition newConfig (w : World) (baseDir : string)
    (basicAuth : option BasicAuthConfig) (bearerToken bearerTokenFile : string)
    (tls : option TLSConfig) : result AuthMaterial :=
  match authHeader w baseDir basicAuth bearerToken bearerTokenFile with
  | Err e => Err e
  | Ok h =>
      match tls with
      | Some t =>
          if bool_decide (CAFile t = "") then Ok (mkAuth h "")
          else match readFile w baseDir (CAFile t) with
               | Ok ca => Ok (mkAuth h ca)
               | Err e => Err e
               end
      | None => Ok (mkAuth h "")
      end
  end.

Definition magic : string :=
  String (ascii_of_nat 31) (String (ascii_of_nat 139) "").

Definition compress (payload : string) : string := magic +:+ payload.

Definition appendGunzipBytes (dst src : string) : result string :=
  if Strings.HasPrefix src magic then Ok (dst +:+ Strings.from 2 src)
  else Err (Errorf "gzip: invalid header" []).

Definition requestURI (url : string) : string :=
  (URI.splitHostURI "" url).2.

Global Instance platform : Platform := {|
  Config := AuthMaterial;
  Authorization := header;
  tlsConfig := string;
  NewTLSConfig := rootCA;
  NewConfig := newConfig;
  TCP6Enabled := false;
  AppendGunzipBytes := appendGunzipBytes;
  joinSelectors := fun _ _ _ => "";
  RequestURI := requestURI
|}.

(** A pod: both service variables set, the service-account files mounted. *)
Definition pod : World :=
  mkWorld (<["KUBERNETES_SERVICE_HOST" := "10.0.0.1"]>
             (<["KUBERNETES_SERVICE_PORT" := "6443"]> ∅))
          (<[caFilePath := "-----BEGIN CERTIFICATE-----"]>
             (<[tokenFilePath := "s3cr3t"]> ∅)).

(** A host outside any cluster: no variable set, no file mounted. *)
Definition bare : World := mkWorld ∅ ∅.

(** A pod whose port variable is not set. *)
Definition noPort : World :=
  mkWorld (<["KUBERNETES_SERVICE_HOST" := "10.0.0.1"]> ∅) (files pod).

(** An in-cluster configuration: nothing set. *)
Definition inCluster : SDConfig :=
  mkSDConfig "" None "" "" None (mkNamespaces []) [].

(** An in-cluster configuration that also carries explicit credentials. *)
Definition inClusterWithAuth : SDConfig :=
  mkSDConfig "" (Some (mkBasicAuth "admin" "hunter2" "")) "" "" None
             (mkNamespaces []) [].

(** The host client [newHostClient] makes on the pod. *)
Definition podClient : hcValue :=
  mkHcValue _
    (mkHostClient _ "10.0.0.1:6443" "vm_promscrape/discovery" false true
       (Some "-----BEGIN CERTIFICATE-----") Minute (10 * Second)
       (300 * 1024 * 1024))
    (Some (mkAuth "Bearer s3cr3t" "-----BEGIN CERTIFICATE-----"))
    "https://10.0.0.1:6443" "10.0.0.1:6443".

(** The host clients made for three explicit API servers, with no auth
    config. *)
Definition explicitClient (srv hostPort : string) (isTLS : bool) : hcValue :=
  mkHcValue _
    (mkHostClient _ hostPort "vm_promscrape/discovery" false isTLS None
       Minute (10 * Second) (300 * 1024 * 1024))
    None srv hostPort.

Definition httpClient : hcValue :=
  explicitClient "http://api.example.com" "api.example.com:80" false.

Definition httpsClient : hcValue :=
  explicitClient "https://api.example.com" "api.example.com:443" true.

Definition ipv6Client : hcValue :=
  explicitClient "https://[::1]" "[::1]" true.

(** The context resolved on the pod for the in-cluster configuration. *)
Definition context : apiConfig := apiConfigOf inCluster podClient.

(** A network that answers every request with [resp]. *)
Definition answering (resp : Response) : HostClient -> Request -> result Response :=
  fun _ _ => Ok resp.

End Sample.

(** ** Further sample inputs *)

Module Examples.

(** A configuration naming its API server, with a bearer token. *)
Definition external : SDConfig :=
  mkSDConfig "https://k8s.example.com:6443" None "t0ken" "" None
             (mkNamespaces ["default"]) [mkSelector "pod" "app=web" ""].

(** The same over plain http. *)
Definition externalPlain : SDConfig :=
  mkSDConfig "http://k8s.example.com" None "t0ken" "" None
             (mkNamespaces ["default"]) [].

(** An in-cluster configuration pointing at a token file that does not
    exist. *)
Definition brokenAuth : SDConfig :=
  mkSDConfig "" None "" "/nonexistent/token" None (mkNamespaces []) [].

(** A pod whose service-account files are not mounted. *)
Definition unmounted : World := mkWorld (env Sample.pod) ∅.

(** A pod in an IPv6 cluster. *)
Definition podV6 : World :=
  mkWorld (<["KUBERNETES_SERVICE_HOST" := "FD00::1"]>
             (<["KUBERNETES_SERVICE_PORT" := "443"]> ∅))
          (files Sample.pod).

(** A network that is down. *)
Definition unreachable : HostClient -> Request -> result Response :=
  fun _ _ => Err (Errorf "dial tcp: connection refused" []).

End Examples.

(** * Properties *)

(** ** Strings, environment, URLs *)

Section StringFacts.
Import Strings.

Lemma len_zero (s : string) : len s = 0%nat <-> s = "".
Proof. destruct s; simpl; split; intros; congruence. Qed.

Lemma HasPrefix_byte (s : string) (a b : ascii) :
  HasPrefix (String b s) (String a "") = Ascii.eqb b a.
Proof.
  simpl. rewrite Ascii.eqb_sym. destruct (Ascii.eqb b a), s; reflexivity.
Qed.

Lemma Index_byte (s : string) (c : ascii) :
  Index s (String c "") = IndexByte s c.
Proof.
  induction s as [|b s IH]; [reflexivity|].
  cbn [Index IndexByte]. rewrite HasPrefix_byte, IH. reflexivity.
Qed.

Lemma Contains_byte (s : string) (c : ascii) :
  Contains s (String c "") = bool_decide (is_Some (IndexByte s c)).
Proof. unfold Contains. rewrite Index_byte. reflexivity. Qed.

(** A host without a colon is joined to its port as it is. *)
Lemma JoinHostPort_plain (host port : string) :
  Contains host ":" = false ->
  Net.JoinHostPort host port = host +:+ ":" +:+ port.
Proof.
  intros Hc. unfold Net.JoinHostPort.
  change ":"%string with (String ":"%char "") in Hc.
  rewrite Contains_byte in Hc. rewrite Hc. reflexivity.
Qed.

Lemma Getenv_unset (w : World) (key : string) :
  env w !! key = None -> Getenv w key = "".
Proof. unfold Getenv. intros ->. reflexivity. Qed.

Lemma Getenv_set (w : World) (key value : string) :
  env w !! key = Some value -> Getenv w key = value.
Proof. unfold Getenv. intros ->. reflexivity. Qed.

(** Whatever follows it, ["https://"] parses to the scheme ["https"]. *)
Lemma Scheme_https (rest : string) :
  URI.Scheme (URI.Update ("https://" +:+ rest)) = "https".
Proof.
  unfold URI.Update, URI.Parse, URI.splitHostURI, Contains.
  cbv [String.append]. fold String.append. cbn.
  rewrite bool_decide_eq_false_2 by done.
  rewrite !bool_decide_eq_true_2 by done.
  destruct (IndexByte rest "/"); [reflexivity|].
  destruct (IndexByte rest "?"); reflexivity.
Qed.

End StringFacts.

(** ** [newHostClient] *)

Section NewHostClient.
Context `{Platform}.

(** With an API server configured, nothing is discovered. *)
Lemma discover_explicit (w : World) (srv : string) (a : option Config) :
  srv <> "" -> discover w srv a = Ok (srv, a).
Proof.
  intros Hne. unfold discover.
  rewrite bool_decide_eq_false_2; [reflexivity|].
  rewrite len_zero. exact Hne.
Qed.

(** What a successful [newHostClient] returns, in terms of the server and
    auth config its first block settled on. *)
Lemma newHostClient_Ok (w : World) (srv : string) (a : option Config)
    (hcv : hcValue) :
  newHostClient w srv a = Ok hcv ->
  let u := URI.Update (apiServer hcv) in
  let isTLS := bool_decide (URI.Scheme u = "https") in
  discover w srv a = Ok (apiServer hcv, ac hcv) /\
  hcHostPort hcv =
    (if negb (Strings.Contains (URI.Host u) ":")
     then Net.JoinHostPort (URI.Host u) (if isTLS then "443" else "80")
     else URI.Host u) /\
  hc hcv = mkHostClient _ (hcHostPort hcv) "vm_promscrape/discovery"
             TCP6Enabled isTLS
             (match ac hcv with
              | Some a' => if isTLS then Some (NewTLSConfig a') else None
              | None => None
              end)
             Minute (10 * Second) (300 * 1024 * 1024).
Proof.
  unfold newHostClient. destruct (discover w srv a) as [[srv' a']|e]; [|discriminate].
  intros [= <-]. cbn [apiServer ac hcHostPort hc]. auto.
Qed.

End NewHostClient.

Section ClientProperties.
Context `{Platform}.

(** C7.  Every successful [newHostClient] binds the client to exactly the
    resolved host:port and gives it the fixed limits: a read timeout of
    one minute, a write timeout of ten seconds, a maximum response body
    of 300 MiB, and dual-stack dialing exactly when IPv6 is enabled. *)
Theorem newHostClient_client_limits (w : World) (srv : string)
    (a : option Config) (hcv : hcValue) :
  newHostClient w srv a = Ok hcv ->
  Addr (hc hcv) = hcHostPort hcv /\
  ReadTimeout (hc hcv) = 60 * Second /\
  WriteTimeout (hc hcv) = 10 * Second /\
  Second = 10 ^ 9 /\
  MaxResponseBodySize (hc hcv) = 300 * 2 ^ 20 /\
  DialDualStack (hc hcv) = TCP6Enabled.
Proof.
  intros Hok. destruct (newHostClient_Ok _ _ _ _ Hok) as (_ & _ & ->).
  cbn. repeat split; reflexivity.
Qed.

(** C6, amended.  When the host component of the resolved server URL has
    no colon in it, the host:port is that host followed by [:443] for the
    scheme https and by [:80] for any other scheme. *)
Theorem newHostClient_default_port (w : World) (srv : string)
    (a : option Config) (hcv : hcValue) :
  newHostClient w srv a = Ok hcv ->
  Strings.Contains (URI.Host (URI.Update (apiServer hcv))) ":" = false ->
  hcHostPort hcv =
    URI.Host (URI.Update (apiServer hcv)) +:+ ":" +:+
    (if bool_decide (URI.Scheme (URI.Update (apiServer hcv)) = "https")
     then "443" else "80").
Proof.
  intros Hok Hcolon. destruct (newHostClient_Ok _ _ _ _ Hok) as (_ & -> & _).
  rewrite Hcolon. cbn [negb]. apply JoinHostPort_plain, Hcolon.
Qed.

(** A host component with a colon in it is the host:port as it stands. *)
Lemma newHostClient_colon_kept (w : World) (srv : string)
    (a : option Config) (hcv : hcValue) :
  newHostClient w srv a = Ok hcv ->
  Strings.Contains (URI.Host (URI.Update (apiServer hcv))) ":" = true ->
  hcHostPort hcv = URI.Host (URI.Update (apiServer hcv)).
Proof.
  intros Hok Hcolon. destruct (newHostClient_Ok _ _ _ _ Hok) as (_ & -> & _).
  rewrite Hcolon. reflexivity.
Qed.

(** C3.  With no API server configured, [newHostClient] reads
    KUBERNETES_SERVICE_HOST and KUBERNETES_SERVICE_PORT.  If the first is
    not set, or the first is set and the second is not, it fails with an
    error naming the one that is missing.  With both set and the
    service-account files loaded, the server is ["https://"] followed by
    the joined host and port (host, colon, port for a host without
    colons), the auth config is the one built from the token file
    [tokenFilePath] and the CA file [caFilePath], and the client's TLS
    configuration comes from that auth config. *)
Theorem newHostClient_in_cluster (w : World) (a : option Config) :
  (env w !! "KUBERNETES_SERVICE_HOST" = None ->
   exists e, newHostClient w "" a = Err e /\
             names e "KUBERNETES_SERVICE_HOST" = true) /\
  (Getenv w "KUBERNETES_SERVICE_HOST" <> "" ->
   env w !! "KUBERNETES_SERVICE_PORT" = None ->
   exists e, newHostClient w "" a = Err e /\
             names e "KUBERNETES_SERVICE_PORT" = true) /\
  (forall host port acNew,
     env w !! "KUBERNETES_SERVICE_HOST" = Some host -> host <> "" ->
     env w !! "KUBERNETES_SERVICE_PORT" = Some port -> port <> "" ->
     NewConfig w "/" None "" tokenFilePath
               (Some (mkTLS caFilePath "" "" "" false)) = Ok acNew ->
     exists hcv,
       newHostClient w "" a = Ok hcv /\
       apiServer hcv = "https://" +:+ Net.JoinHostPort host port /\
       (Strings.Contains host ":" = false ->
        apiServer hcv = "https://" +:+ host +:+ ":" +:+ port) /\
       ac hcv = Some acNew /\
       IsTLS (hc hcv) = true /\
       TLSConfigOf (hc hcv) = Some (NewTLSConfig acNew)).
Proof.
  split; [|split].
  - intros Hhost. eexists. split.
    + unfold newHostClient, discover. rewrite (Getenv_unset _ _ Hhost).
      reflexivity.
    + reflexivity.
  - intros Hhost Hport. eexists. split.
    + unfold newHostClient, discover. rewrite (Getenv_unset _ _ Hport).
      cbn. rewrite (bool_decide_eq_false_2 (Strings.len _ = 0%nat))
        by (rewrite len_zero; exact Hhost).
      reflexivity.
    + reflexivity.
  - intros host port acNew Hh Hhne Hp Hpne Hnew.
    unfold newHostClient, discover.
    rewrite (Getenv_set _ _ _ Hh), (Getenv_set _ _ _ Hp). cbn.
    rewrite (bool_decide_eq_false_2 (Strings.len host = 0%nat))
      by (rewrite len_zero; exact Hhne).
    rewrite (bool_decide_eq_false_2 (Strings.len port = 0%nat))
      by (rewrite len_zero; exact Hpne).
    rewrite Hnew. eexists. split; [reflexivity|].
    cbn [apiServer ac hc IsTLS TLSConfigOf].
    rewrite Scheme_https. cbn.
    repeat split; try reflexivity.
    intros Hc. rewrite (JoinHostPort_plain _ _ Hc). reflexivity.
Qed.

End ClientProperties.

(** The limits of C7 on the client of a pod. *)
Lemma newHostClient_client_limits_witness :
  newHostClient Sample.pod "" None = Ok Sample.podClient /\
  Addr (hc Sample.podClient) = hcHostPort Sample.podClient /\
  ReadTimeout (hc Sample.podClient) = 60 * Second /\
  WriteTimeout (hc Sample.podClient) = 10 * Second /\
  Second = 10 ^ 9 /\
  MaxResponseBodySize (hc Sample.podClient) = 300 * 2 ^ 20 /\
  DialDualStack (hc Sample.podClient) = TCP6Enabled.
Proof.
  assert (Hok : newHostClient Sample.pod "" None = Ok Sample.podClient)
    by (vm_compute; reflexivity).
  split; [exact Hok|].
  exact (newHostClient_client_limits Sample.pod "" None Sample.podClient Hok).
Defined.

(** The two examples of C6: [http://api.example.com] resolves to port 80 and
    [https://api.example.com] to port 443. *)
Lemma newHostClient_default_port_witness :
  (newHostClient Sample.bare "http://api.example.com" None
   = Ok Sample.httpClient /\
   hcHostPort Sample.httpClient = "api.example.com:80") /\
  (newHostClient Sample.bare "https://api.example.com" None
   = Ok Sample.httpsClient /\
   hcHostPort Sample.httpsClient = "api.example.com:443").
Proof.
  assert (Hhttp : newHostClient Sample.bare "http://api.example.com" None
                  = Ok Sample.httpClient) by (vm_compute; reflexivity).
  assert (Hhttps : newHostClient Sample.bare "https://api.example.com" None
                   = Ok Sample.httpsClient) by (vm_compute; reflexivity).
  split; (split; [assumption|]).
  - rewrite (newHostClient_default_port Sample.bare "http://api.example.com"
               None Sample.httpClient Hhttp ltac:(vm_compute; reflexivity)).
    vm_compute. reflexivity.
  - rewrite (newHostClient_default_port Sample.bare "https://api.example.com"
               None Sample.httpsClient Hhttps ltac:(vm_compute; reflexivity)).
    vm_compute. reflexivity.
Defined.

(** C6 as stated fails on a bracketed IPv6 literal: the host component of
    [https://[::1]] has no explicit port, yet no port is appended to it. *)
Lemma newHostClient_ipv6_literal_gets_no_port :
  newHostClient Sample.bare "https://[::1]" None = Ok Sample.ipv6Client /\
  URI.Host (URI.Update (apiServer Sample.ipv6Client)) = "[::1]" /\
  URI.Scheme (URI.Update (apiServer Sample.ipv6Client)) = "https" /\
  Spec.explicitPort (URI.Host (URI.Update (apiServer Sample.ipv6Client)))
  = false /\
  hcHostPort Sample.ipv6Client = "[::1]" /\
  hcHostPort Sample.ipv6Client <> "[::1]:443".
Proof.
  split; [vm_compute; reflexivity|].
  split; [vm_compute; reflexivity|].
  split; [vm_compute; reflexivity|].
  split; [vm_compute; reflexivity|].
  split; [reflexivity|].
  vm_compute. discriminate.
Qed.

(** C3 on three worlds: nothing set, the port missing, and a pod with host
    [10.0.0.1] and port [6443]. *)
Lemma newHostClient_in_cluster_witness :
  (exists e, newHostClient Sample.bare "" None = Err e /\
             names e "KUBERNETES_SERVICE_HOST" = true) /\
  (exists e, newHostClient Sample.noPort "" None = Err e /\
             names e "KUBERNETES_SERVICE_PORT" = true) /\
  (exists hcv,
     newHostClient Sample.pod "" None = Ok hcv /\
     apiServer hcv = "https://10.0.0.1:6443" /\
     ac hcv = Some (Sample.mkAuth "Bearer s3cr3t" "-----BEGIN CERTIFICATE-----"
                    : @Config Sample.platform) /\
     IsTLS (hc hcv) = true /\
     TLSConfigOf (hc hcv)
     = Some ("-----BEGIN CERTIFICATE-----" : @tlsConfig Sample.platform)).
Proof.
  split; [|split].
  - exact (proj1 (newHostClient_in_cluster Sample.bare None)
                 ltac:(vm_compute; reflexivity)).
  - exact (proj1 (proj2 (newHostClient_in_cluster Sample.noPort None))
                 ltac:(vm_compute; discriminate)
                 ltac:(vm_compute; reflexivity)).
  - destruct (proj2 (proj2 (newHostClient_in_cluster Sample.pod None))
                "10.0.0.1" "6443"
                (Sample.mkAuth "Bearer s3cr3t" "-----BEGIN CERTIFICATE-----"
                 : @Config Sample.platform)
                ltac:(vm_compute; reflexivity) ltac:(discriminate)
                ltac:(vm_compute; reflexivity) ltac:(discriminate)
                ltac:(vm_compute; reflexivity))
      as (hcv & Hok & _ & Hplain & Hac & Htls & Hcfg).
    exists hcv. split; [exact Hok|].
    split; [exact (Hplain ltac:(vm_compute; reflexivity))|].
    split; [exact Hac|]. split; [exact Htls|]. exact Hcfg.
Defined.

(** ** [getAPIResponse] *)

Section Fetch.
Context `{Platform}.
Variable do : HostClient -> Request -> result Response.
Variables (cfg : apiConfig) (role path : string) (resp : Response).
Hypothesis answered : do (client cfg) (requestOf cfg role path) = Ok resp.

Local Notation url := (requestURLOf cfg role path).

(** Once the body is decoded, the status alone decides the outcome. *)
Lemma getAPIResponse_decoded (data : string) :
  decodeBody url resp = Ok data ->
  getAPIResponse do cfg role path =
    if bool_decide (StatusCode resp <> StatusOK)
    then Err (errStatus url (StatusCode resp) data)
    else Ok data.
Proof.
  intros Hdec. unfold getAPIResponse. rewrite answered, Hdec.
  reflexivity.
Qed.

(** A body that cannot be decoded fails the call, whatever the status. *)
Lemma getAPIResponse_undecoded (err : error) :
  decodeBody url resp = Err err ->
  getAPIResponse do cfg role path = Err err.
Proof.
  intros Hdec. unfold getAPIResponse. rewrite answered, Hdec.
  reflexivity.
Qed.

Lemma decodeBody_plain :
  Peek (respHeader resp) "Content-Encoding" <> "gzip" ->
  decodeBody url resp = Ok (Body resp).
Proof.
  intros Hce. unfold decodeBody. rewrite bool_decide_eq_false_2 by exact Hce.
  reflexivity.
Qed.

Lemma decodeBody_gzip :
  Peek (respHeader resp) "Content-Encoding" = "gzip" ->
  decodeBody url resp =
    wrapErr (AppendGunzipBytes "" (Body resp)) (errUngzip url).
Proof.
  intros Hce. unfold decodeBody. rewrite bool_decide_eq_true_2 by exact Hce.
  reflexivity.
Qed.

End Fetch.

Section FetchProperties.
Context `{Platform}.
Variable do : HostClient -> Request -> result Response.
Variables (cfg : apiConfig) (role path : string) (resp : Response).

(** C4, amended.  When the server answers and the body decodes (it is not
    gzip-encoded, or it gunzips), the call returns the data exactly when the
    status is 200, and for any other status it returns an error carrying
    that status, the full request URL and the decoded body.  Whether or not
    the body decodes, data is never returned with another status. *)
Theorem getAPIResponse_status :
  do (client cfg) (requestOf cfg role path) = Ok resp ->
  (forall data, getAPIResponse do cfg role path = Ok data ->
                StatusCode resp = 200) /\
  (forall data,
     decodeBody (requestURLOf cfg role path) resp = Ok data ->
     (getAPIResponse do cfg role path = Ok data <-> StatusCode resp = 200) /\
     (StatusCode resp <> 200 ->
      exists e,
        getAPIResponse do cfg role path = Err e /\
        carries e (ArgInt (StatusCode resp)) /\
        carries e (ArgString (requestURLOf cfg role path)) /\
        carries e (ArgBytes data))).
Proof.
  intros Hdo. split.
  - intros data Hok.
    destruct (decodeBody (requestURLOf cfg role path) resp) as [d|e] eqn:Hdec.
    + rewrite (getAPIResponse_decoded _ _ _ _ _ Hdo _ Hdec) in Hok.
      case_bool_decide as Hst; [discriminate|].
      destruct (decide (StatusCode resp = StatusOK)) as [Heq|Hne];
        [exact Heq | contradiction].
    + rewrite (getAPIResponse_undecoded _ _ _ _ _ Hdo _ Hdec) in Hok.
      discriminate.
  - intros data Hdec.
    rewrite (getAPIResponse_decoded _ _ _ _ _ Hdo _ Hdec).
    split; [split|].
    + case_bool_decide as Hst; [discriminate|]. intros _.
      destruct (decide (StatusCode resp = StatusOK)); [assumption|contradiction].
    + intros Hst. rewrite bool_decide_eq_false_2; [reflexivity|].
      intros Hne. apply Hne, Hst.
    + intros Hst. rewrite bool_decide_eq_true_2 by exact Hst.
      eexists. split; [reflexivity|].
      unfold carries, errStatus; cbn [args_of].
      repeat split; set_solver.
Qed.

(** C5.  For an answer with status 200: under [Content-Encoding: gzip] the
    call returns what the body gunzips to, so that, the gunzip undoing
    [compress], a compressed payload comes back as the original bytes; under
    any other or no content encoding the body is returned as it is. *)
Theorem getAPIResponse_gzip_roundtrip (compress : string -> string) :
  (forall payload, AppendGunzipBytes "" (compress payload) = Ok payload) ->
  do (client cfg) (requestOf cfg role path) = Ok resp ->
  StatusCode resp = 200 ->
  (Peek (respHeader resp) "Content-Encoding" = "gzip" ->
   (forall data, AppendGunzipBytes "" (Body resp) = Ok data ->
                 getAPIResponse do cfg role path = Ok data) /\
   (forall payload, Body resp = compress payload ->
                    getAPIResponse do cfg role path = Ok payload)) /\
  (Peek (respHeader resp) "Content-Encoding" <> "gzip" ->
   getAPIResponse do cfg role path = Ok (Body resp)).
Proof.
  intros Hround Hdo Hst.
  assert (Hgz : Peek (respHeader resp) "Content-Encoding" = "gzip" ->
                forall data, AppendGunzipBytes "" (Body resp) = Ok data ->
                             getAPIResponse do cfg role path = Ok data).
  { intros Hce data Hun.
    rewrite (getAPIResponse_decoded _ _ _ _ _ Hdo data).
    - rewrite bool_decide_eq_false_2; [reflexivity|]. intros Hne. apply Hne, Hst.
    - rewrite decodeBody_gzip by exact Hce. rewrite Hun. reflexivity. }
  split.
  - intros Hce. split; [exact (Hgz Hce)|].
    intros payload Hbody. apply (Hgz Hce). rewrite Hbody. apply Hround.
  - intros Hce. rewrite (getAPIResponse_decoded _ _ _ _ _ Hdo (Body resp)).
    + rewrite bool_decide_eq_false_2; [reflexivity|]. intros Hne. apply Hne, Hst.
    + apply decodeBody_plain, Hce.
Qed.

(** C9.  The body is decoded before the status is looked at.  Under
    [Content-Encoding: gzip], a body that does not gunzip fails the call
    with the ungzip error whatever the status, 200 or not; and when the body
    gunzips and the status is not 200, the status error carries the
    gunzipped body, not the bytes received. *)
Theorem getAPIResponse_decodes_before_status :
  do (client cfg) (requestOf cfg role path) = Ok resp ->
  Peek (respHeader resp) "Content-Encoding" = "gzip" ->
  (forall err, AppendGunzipBytes "" (Body resp) = Err err ->
     getAPIResponse do cfg role path
     = Err (errUngzip (requestURLOf cfg role path) err)) /\
  (forall data, AppendGunzipBytes "" (Body resp) = Ok data ->
     StatusCode resp <> 200 ->
     getAPIResponse do cfg role path
     = Err (errStatus (requestURLOf cfg role path) (StatusCode resp) data) /\
     carries (errStatus (requestURLOf cfg role path) (StatusCode resp) data)
             (ArgBytes data)).
Proof.
  intros Hdo Hce. split.
  - intros err Hun. apply (getAPIResponse_undecoded _ _ _ _ _ Hdo).
    rewrite decodeBody_gzip by exact Hce. rewrite Hun. reflexivity.
  - intros data Hun Hst. split.
    + rewrite (getAPIResponse_decoded _ _ _ _ _ Hdo data).
      * rewrite bool_decide_eq_true_2 by exact Hst. reflexivity.
      * rewrite decodeBody_gzip by exact Hce. rewrite Hun. reflexivity.
    + unfold carries, errStatus; cbn [args_of]. set_solver.
Qed.

End FetchProperties.

(** ** The fetch on the sample platform *)

(** The sample gunzip undoes the sample compression. *)
Lemma sample_gunzip_compress (payload : string) :
  Sample.appendGunzipBytes "" (Sample.compress payload) = Ok payload.
Proof. reflexivity. Qed.

(** C4, amended, on a plain 404 and on a plain 200. *)
Lemma getAPIResponse_status_witness :
  (exists e,
     getAPIResponse (Sample.answering (mkResponse 404 [] "not found"))
                    Sample.context "pod" "/api/v1/pods" = Err e /\
     carries e (ArgInt 404) /\
     carries e (ArgString "https://10.0.0.1:6443/api/v1/pods") /\
     carries e (ArgBytes "not found")) /\
  (getAPIResponse (Sample.answering (mkResponse 200 [] "{}"))
                  Sample.context "pod" "/api/v1/pods" = Ok "{}"
   <-> StatusCode (mkResponse 200 [] "{}") = 200).
Proof.
  split.
  - apply (proj2 (getAPIResponse_status
                    (Sample.answering (mkResponse 404 [] "not found"))
                    Sample.context "pod" "/api/v1/pods"
                    (mkResponse 404 [] "not found") eq_refl) "not found").
    + reflexivity.
    + discriminate.
  - apply (proj2 (getAPIResponse_status
                    (Sample.answering (mkResponse 200 [] "{}"))
                    Sample.context "pod" "/api/v1/pods"
                    (mkResponse 200 [] "{}") eq_refl) "{}").
    reflexivity.
Defined.

(** C4 as stated fails when the body does not decode: a 200 answer does not
    yield data, and the error for a 500 answer carries no status code. *)
Lemma getAPIResponse_undecodable_body_escapes_status :
  (StatusCode (mkResponse 200 [("Content-Encoding", "gzip")] "not gzip") = 200 /\
   ~ Spec.succeeds
       (getAPIResponse
          (Sample.answering
             (mkResponse 200 [("Content-Encoding", "gzip")] "not gzip"))
          Sample.context "pod" "/api/v1/pods")) /\
  (exists e,
     getAPIResponse
       (Sample.answering
          (mkResponse 500 [("Content-Encoding", "gzip")] "not gzip"))
       Sample.context "pod" "/api/v1/pods" = Err e /\
     ~ carries e (ArgInt 500)).
Proof.
  split; [split; [reflexivity|]|].
  - intros [data Hdata]. vm_compute in Hdata. discriminate.
  - eexists. split; [vm_compute; reflexivity|].
    unfold carries; cbn [args_of]. intros Hin.
    apply elem_of_cons in Hin as [Hin|Hin]; [discriminate|].
    apply elem_of_cons in Hin as [Hin|Hin]; [discriminate|].
    apply elem_of_nil in Hin. exact Hin.
Qed.

(** C5 on a compressed and on a plain answer. *)
Lemma getAPIResponse_gzip_roundtrip_witness :
  getAPIResponse
    (Sample.answering
       (mkResponse 200 [("Content-Encoding", "gzip")] (Sample.compress "{}")))
    Sample.context "pod" "/api/v1/pods" = Ok "{}" /\
  getAPIResponse
    (Sample.answering (mkResponse 200 [("Content-Type", "text/plain")] "{}"))
    Sample.context "pod" "/api/v1/pods" = Ok "{}".
Proof.
  split.
  - apply (proj1 (getAPIResponse_gzip_roundtrip
                    (Sample.answering
                       (mkResponse 200 [("Content-Encoding", "gzip")]
                                   (Sample.compress "{}")))
                    Sample.context "pod" "/api/v1/pods" _
                    Sample.compress sample_gunzip_compress eq_refl eq_refl)
                 eq_refl).
    reflexivity.
  - apply (proj2 (getAPIResponse_gzip_roundtrip
                    (Sample.answering
                       (mkResponse 200 [("Content-Type", "text/plain")] "{}"))
                    Sample.context "pod" "/api/v1/pods" _
                    Sample.compress sample_gunzip_compress eq_refl eq_refl)).
    discriminate.
Defined.

(** C9 on two 500 answers marked gzip, one that does not gunzip and one
    that does. *)
Lemma getAPIResponse_decodes_before_status_witness :
  getAPIResponse
    (Sample.answering (mkResponse 500 [("Content-Encoding", "gzip")] "oops"))
    Sample.context "pod" "/api/v1/pods"
  = Err (errUngzip "https://10.0.0.1:6443/api/v1/pods"
                   (Errorf "gzip: invalid header" [])) /\
  getAPIResponse
    (Sample.answering
       (mkResponse 500 [("Content-Encoding", "gzip")] (Sample.compress "oops")))
    Sample.context "pod" "/api/v1/pods"
  = Err (errStatus "https://10.0.0.1:6443/api/v1/pods" 500 "oops").
Proof.
  split.
  - apply (proj1 (getAPIResponse_decodes_before_status
                    (Sample.answering
                       (mkResponse 500 [("Content-Encoding", "gzip")] "oops"))
                    Sample.context "pod" "/api/v1/pods" _ eq_refl eq_refl)).
    reflexivity.
  - apply (proj2 (getAPIResponse_decodes_before_status
                    (Sample.answering
                       (mkResponse 500 [("Content-Encoding", "gzip")]
                                   (Sample.compress "oops")))
                    Sample.context "pod" "/api/v1/pods" _ eq_refl eq_refl)
                 "oops").
    + reflexivity.
    + discriminate.
Defined.

(** ** The configuration cache *)

Section Cache.
Context `{Platform}.

(** [newAPIConfig], step by step: the construction is logged, the explicit
    auth settings are parsed, the host client is made, the object is
    allocated.  The cache is not touched. *)
Lemma newAPIConfig_run (w : World) (sdc : SDConfigRef) (baseDir : string)
    (st : Store) :
  newAPIConfig w sdc baseDir st =
    match NewConfig w baseDir (BasicAuth sdc) (BearerToken sdc)
                    (BearerTokenFile sdc) (TLS sdc) with
    | Err err =>
        (Err (errParseAuth err),
         mkStore _ (configMap st) (heap st) (deref sdc :: constructions st))
    | Ok ac0 =>
        match newHostClient w (APIServer sdc) (Some ac0) with
        | Err err =>
            (Err (errCreateClient (APIServer sdc) err),
             mkStore _ (configMap st) (heap st) (deref sdc :: constructions st))
        | Ok hcv =>
            (Ok (length (heap st)),
             mkStore _ (configMap st) (heap st ++ [apiConfigOf sdc hcv])
                     (deref sdc :: constructions st))
        end
    end.
Proof.
  unfold newAPIConfig, bind, lift, logConstruction, new, wrapErr. cbn.
  destruct (NewConfig w baseDir _ _ _ _) as [ac0|err]; [|reflexivity].
  destruct (newHostClient w _ _) as [hcv|err]; reflexivity.
Qed.

(** What any run of [newAPIConfig] leaves of the store. *)
Lemma newAPIConfig_frame (w : World) (sdc : SDConfigRef) (baseDir : string)
    (st st' : Store) (r : result nat) :
  newAPIConfig w sdc baseDir st = (r, st') ->
  configMap st' = configMap st /\
  constructions st' = deref sdc :: constructions st /\
  (forall v cfg, heap st !! v = Some cfg -> heap st' !! v = Some cfg).
Proof.
  rewrite newAPIConfig_run.
  destruct (NewConfig w baseDir _ _ _ _) as [ac0|err].
  - destruct (newHostClient w _ _) as [hcv|err]; intros [= <- <-]; cbn;
      repeat split; auto.
    intros v cfg Hv. apply lookup_app_l_Some, Hv.
  - intros [= <- <-]; cbn; repeat split; auto.
Qed.

(** A cached identity is answered from the cache, and the store stays as it
    is: nothing is constructed. *)
Lemma getAPIConfig_hit (w : World) (sdc : SDConfigRef) (baseDir : string)
    (st : Store) (v : nat) :
  configMap st !! deref sdc = Some v ->
  getAPIConfig w sdc baseDir st = (Ok v, st).
Proof.
  intros Hv. unfold getAPIConfig, ConfigMap.Get, ConfigMap.identity.
  rewrite Hv. reflexivity.
Qed.

(** An identity that is not cached is constructed. *)
Lemma getAPIConfig_miss (w : World) (sdc : SDConfigRef) (baseDir : string)
    (st : Store) :
  configMap st !! deref sdc = None ->
  getAPIConfig w sdc baseDir st =
    match newAPIConfig w sdc baseDir st with
    | (Ok v, st') =>
        (Ok v, mkStore _ (<[deref sdc := v]> (configMap st'))
                       (heap st') (constructions st'))
    | (Err err, st') => (Err err, st')
    end.
Proof.
  intros Hv. unfold getAPIConfig, ConfigMap.Get, ConfigMap.identity.
  rewrite Hv. reflexivity.
Qed.

Lemma runsFor_cons (c c' : SDConfig) (st : Store) (m : gmap SDConfig nat)
    (h : list apiConfig) :
  runsFor c (mkStore _ m h (c' :: constructions st)) =
    if decide (c' = c) then S (runsFor c st) else runsFor c st.
Proof.
  unfold runsFor. cbn [constructions]. rewrite filter_cons.
  destruct (decide (c' = c)); reflexivity.
Qed.

(** Once identity [c] is cached as [v], every call keeps it cached as [v],
    constructs nothing for [c], and answers [v] if it presents [c]. *)
Lemma getAPIConfig_keeps (c : SDConfig) (v : nat) (w : World)
    (sdc : SDConfigRef) (baseDir : string) (st st' : Store) (r : result nat) :
  configMap st !! c = Some v ->
  getAPIConfig w sdc baseDir st = (r, st') ->
  configMap st' !! c = Some v /\
  runsFor c st' = runsFor c st /\
  (deref sdc = c -> r = Ok v).
Proof.
  intros Hc Hget.
  destruct (configMap st !! deref sdc) as [v'|] eqn:Hsdc.
  - rewrite (getAPIConfig_hit _ _ _ _ _ Hsdc) in Hget.
    injection Hget as <- <-. repeat split; auto.
    intros <-. congruence.
  - assert (Hne : deref sdc <> c) by congruence.
    rewrite (getAPIConfig_miss _ _ _ _ Hsdc), newAPIConfig_run in Hget.
    destruct (NewConfig w baseDir _ _ _ _) as [ac0|err].
    + destruct (newHostClient w _ _) as [hcv|err];
        injection Hget as <- <-; cbn [configMap];
        rewrite ?lookup_insert_ne by exact Hne;
        rewrite runsFor_cons, decide_False by exact Hne;
        repeat split; auto; contradiction.
    + injection Hget as <- <-; cbn [configMap].
      rewrite runsFor_cons, decide_False by exact Hne.
      repeat split; auto; contradiction.
Qed.

Lemma getAPIConfigs_keeps (c : SDConfig) (v : nat) (calls : list call) :
  forall (st st' : Store) (rs : list (result nat)),
    configMap st !! c = Some v ->
    getAPIConfigs calls st = (rs, st') ->
    length rs = length calls /\
    runsFor c st' = runsFor c st /\
    (forall i cl, calls !! i = Some cl -> deref (callSdc cl) = c ->
                  rs !! i = Some (Ok v)).
Proof.
  induction calls as [|cl calls IH]; intros st st' rs Hc Hrun.
  - injection Hrun as <- <-. repeat split; auto. intros i cl Hi. discriminate.
  - cbn [getAPIConfigs] in Hrun.
    destruct (getAPIConfig _ _ _ st) as [r st1] eqn:Hget.
    destruct (getAPIConfigs calls st1) as [rs' st2] eqn:Hrest.
    injection Hrun as <- <-.
    destruct (getAPIConfig_keeps _ _ _ _ _ _ _ _ Hc Hget) as (Hc1 & Hruns1 & Hr).
    destruct (IH _ _ _ Hc1 Hrest) as (Hlen & Hruns2 & Hrs).
    repeat split.
    + cbn. f_equal. exact Hlen.
    + congruence.
    + intros [|i] cl' Hi Heq; cbn in Hi |- *.
      * injection Hi as <-. f_equal. apply Hr, Heq.
      * eapply Hrs; eauto.
Qed.

End Cache.

Section CacheProperties.
Context `{Platform}.

(** Heap objects stay where they are across any sequence of calls. *)
Lemma getAPIConfigs_heap (calls : list call) :
  forall (st st' : Store) (rs : list (result nat)) (v : nat) (cfg : apiConfig),
    getAPIConfigs calls st = (rs, st') ->
    heap st !! v = Some cfg -> heap st' !! v = Some cfg.
Proof.
  induction calls as [|cl calls IH]; intros st st' rs v cfg Hrun Hv.
  - injection Hrun as <- <-. exact Hv.
  - cbn [getAPIConfigs] in Hrun.
    destruct (getAPIConfig _ _ _ st) as [r st1] eqn:Hget.
    destruct (getAPIConfigs calls st1) as [rs' st2] eqn:Hrest.
    injection Hrun as <- <-. eapply IH; [exact Hrest|].
    unfold getAPIConfig, ConfigMap.Get in Hget.
    destruct (configMap st !! _); [injection Hget as <- <-; exact Hv|].
    destruct (newAPIConfig _ _ _ st) as [[v'|e] st3] eqn:Hnew;
      injection Hget as <- <-; cbn [heap];
      apply (newAPIConfig_frame _ _ _ _ _ _ Hnew), Hv.
Qed.

(** C1.  Once [getAPIConfig] has resolved a configuration to the instance
    [v], every later call presenting a configuration with the same fields,
    through whatever pointer, in whatever world and among whatever other
    calls, returns that same instance [v], which stays the object it was,
    and no construction is run for that identity again.  Counted from the
    store the first call found, [newAPIConfig] ran for the identity exactly
    once if it was not cached there, and not at all if it was, however many
    calls follow. *)
Theorem getAPIConfig_dedup (w : World) (c1 : SDConfigRef) (baseDir : string)
    (st st1 st2 : Store) (v : nat) (calls : list call)
    (rs : list (result nat)) :
  getAPIConfig w c1 baseDir st = (Ok v, st1) ->
  getAPIConfigs calls st1 = (rs, st2) ->
  (forall i cl, calls !! i = Some cl ->
                deref (callSdc cl) = deref c1 ->
                rs !! i = Some (Ok v)) /\
  length rs = length calls /\
  runsFor (deref c1) st2 =
    match configMap st !! deref c1 with
    | None => S (runsFor (deref c1) st)
    | Some _ => runsFor (deref c1) st
    end /\
  (forall cfg, heap st1 !! v = Some cfg -> heap st2 !! v = Some cfg).
Proof.
  intros Hget Hrun.
  assert (Hcached : configMap st1 !! deref c1 = Some v /\
                    runsFor (deref c1) st1 =
                      match configMap st !! deref c1 with
                      | None => S (runsFor (deref c1) st)
                      | Some _ => runsFor (deref c1) st
                      end).
  { destruct (configMap st !! deref c1) as [v0|] eqn:Hc1.
    - rewrite (getAPIConfig_hit _ _ _ _ _ Hc1) in Hget.
      injection Hget as <- <-. split; [exact Hc1 | reflexivity].
    - rewrite (getAPIConfig_miss _ _ _ _ Hc1), newAPIConfig_run in Hget.
      destruct (NewConfig w baseDir _ _ _ _) as [ac0|err]; [|discriminate].
      destruct (newHostClient w _ _) as [hcv|err]; [|discriminate].
      injection Hget as <- <-. cbn [configMap]. split.
      + apply lookup_insert_eq.
      + rewrite runsFor_cons, decide_True by reflexivity. reflexivity. }
  destruct Hcached as [Hc Hruns].
  destruct (getAPIConfigs_keeps _ _ _ _ _ _ Hc Hrun) as (Hlen & Hruns2 & Hrs).
  repeat split; [exact Hrs | exact Hlen | congruence |].
  intros cfg. apply (getAPIConfigs_heap _ _ _ _ _ _ Hrun).
Qed.

(** C2.  A failed [getAPIConfig] leaves the cache as it was, with no entry
    for the identity; a later call with the same identity runs the
    construction again, and in a world where the explicit auth settings
    parse and the host client can be made it succeeds, returning the newly
    built context and caching it. *)
Theorem getAPIConfig_failure_not_cached (w : World) (sdc : SDConfigRef)
    (baseDir : string) (st st1 : Store) (e : error) :
  getAPIConfig w sdc baseDir st = (Err e, st1) ->
  configMap st1 = configMap st /\
  configMap st1 !! deref sdc = None /\
  forall (w' : World) (sdc' : SDConfigRef) (baseDir' : string)
         (ac0 : Config) (hcv : hcValue),
    deref sdc' = deref sdc ->
    NewConfig w' baseDir' (BasicAuth sdc') (BearerToken sdc')
              (BearerTokenFile sdc') (TLS sdc') = Ok ac0 ->
    newHostClient w' (APIServer sdc') (Some ac0) = Ok hcv ->
    exists v st2,
      getAPIConfig w' sdc' baseDir' st1 = (Ok v, st2) /\
      heap st2 !! v = Some (apiConfigOf sdc' hcv) /\
      constructions st2 = deref sdc' :: constructions st1 /\
      configMap st2 !! deref sdc' = Some v.
Proof.
  intros Hget.
  destruct (configMap st !! deref sdc) as [v0|] eqn:Hsdc.
  { rewrite (getAPIConfig_hit _ _ _ _ _ Hsdc) in Hget. discriminate. }
  rewrite (getAPIConfig_miss _ _ _ _ Hsdc) in Hget.
  destruct (newAPIConfig w sdc baseDir st) as [[v0|e0] st0] eqn:Hnew;
    [discriminate|].
  injection Hget as <- <-.
  destruct (newAPIConfig_frame _ _ _ _ _ _ Hnew) as (Hmap & _ & _).
  split; [exact Hmap|]. split; [rewrite Hmap; exact Hsdc|].
  intros w' sdc' baseDir' ac0 hcv Heq Hparse Hclient.
  assert (Hsdc' : configMap st0 !! deref sdc' = None)
    by (rewrite Heq, Hmap; exact Hsdc).
  rewrite (getAPIConfig_miss _ _ _ _ Hsdc'), newAPIConfig_run, Hparse, Hclient.
  eexists _, _. split; [reflexivity|]. cbn [heap constructions configMap].
  split; [|split].
  - rewrite lookup_app_r by reflexivity. rewrite Nat.sub_diag. reflexivity.
  - reflexivity.
  - apply lookup_insert_eq.
Qed.

(** With no API server configured the auth config handed to
    [newHostClient] is not used. *)
Lemma newHostClient_in_cluster_ignores_ac (w : World) (a a' : option Config) :
  newHostClient w "" a = newHostClient w "" a'.
Proof. reflexivity. Qed.

(** C10.  With no API server configured, the explicit auth settings are
    parsed and, when they parse, play no further part: two configurations
    that differ only in them give the same result and the same objects, and
    the auth config and the TLS configuration of a resolved context are the
    ones built from the token file [tokenFilePath] and the CA file
    [caFilePath]. *)
Theorem newAPIConfig_in_cluster_ignores_auth (w : World)
    (sdc1 sdc2 : SDConfigRef) (baseDir : string) (st : Store)
    (ac1 ac2 : Config) :
  APIServer sdc1 = "" -> APIServer sdc2 = "" ->
  NamespacesOf sdc1 = NamespacesOf sdc2 ->
  Selectors sdc1 = Selectors sdc2 ->
  NewConfig w baseDir (BasicAuth sdc1) (BearerToken sdc1)
            (BearerTokenFile sdc1) (TLS sdc1) = Ok ac1 ->
  NewConfig w baseDir (BasicAuth sdc2) (BearerToken sdc2)
            (BearerTokenFile sdc2) (TLS sdc2) = Ok ac2 ->
  (newAPIConfig w sdc1 baseDir st).1 = (newAPIConfig w sdc2 baseDir st).1 /\
  heap (newAPIConfig w sdc1 baseDir st).2
  = heap (newAPIConfig w sdc2 baseDir st).2 /\
  (forall v st',
     newAPIConfig w sdc1 baseDir st = (Ok v, st') ->
     exists acNew cfg,
       NewConfig w "/" None "" tokenFilePath
                 (Some (mkTLS caFilePath "" "" "" false)) = Ok acNew /\
       heap st' !! v = Some cfg /\
       authConfig cfg = Some acNew /\
       TLSConfigOf (client cfg) = Some (NewTLSConfig acNew)).
Proof.
  intros Hs1 Hs2 Hns Hsel Hp1 Hp2.
  rewrite !newAPIConfig_run, Hp1, Hp2, Hs1, Hs2.
  rewrite (newHostClient_in_cluster_ignores_ac w (Some ac1) (Some ac2)).
  destruct (newHostClient w "" (Some ac2)) as [hcv|err] eqn:Hclient.
  - cbn [fst snd heap]. unfold apiConfigOf. rewrite Hns, Hsel.
    repeat split; try reflexivity.
    intros v st' [= <- <-]. cbn [heap].
    unfold newHostClient, discover in Hclient.
    rewrite bool_decide_eq_true_2 in Hclient by reflexivity.
    repeat case_bool_decide; try discriminate.
    destruct (NewConfig w "/" None "" tokenFilePath _) as [acNew|err] eqn:Hnew;
      [|discriminate].
    rewrite Scheme_https in Hclient.
    rewrite bool_decide_eq_true_2 in Hclient by reflexivity.
    injection Hclient as <-.
    eexists acNew, _. split; [reflexivity|]. split.
    + rewrite lookup_app_r by reflexivity. rewrite Nat.sub_diag. reflexivity.
    + split; reflexivity.
  - cbn [fst snd heap]. repeat split; try reflexivity. discriminate.
Qed.

End CacheProperties.

(** ** The cache on the sample platform *)

(** A pair is its first component paired with its second. *)
Lemma pair_of_fst {A B : Type} (p : A * B) (a : A) : p.1 = a -> p = (a, p.2).
Proof. destruct p as [a' b]. cbn. intros ->. reflexivity. Qed.


(** C1 on a pod: the in-cluster configuration is resolved once, then asked
    for again through another pointer outside any cluster, through the first
    pointer, and in between a different configuration is resolved. *)
Lemma getAPIConfig_dedup_witness :
  let first := getAPIConfig Sample.pod (mkRef 1 Sample.inCluster) "/" emptyStore in
  let calls := [mkCall Sample.bare (mkRef 2 Sample.inCluster) "/etc";
                mkCall Sample.pod (mkRef 3 Sample.inClusterWithAuth) "/";
                mkCall Sample.pod (mkRef 1 Sample.inCluster) "/"] in
  let rest := getAPIConfigs calls first.2 in
  first.1 = Ok 0%nat /\
  rest.1 !! 0%nat = Some (Ok 0%nat) /\
  rest.1 !! 2%nat = Some (Ok 0%nat) /\
  length rest.1 = 3%nat /\
  runsFor Sample.inCluster rest.2 = 1%nat.
Proof.
  intros first calls rest.
  destruct (getAPIConfig_dedup Sample.pod (mkRef 1 Sample.inCluster) "/"
              emptyStore first.2 rest.2 0%nat calls rest.1
              (pair_of_fst first (Ok 0%nat) ltac:(vm_compute; reflexivity))
              (surjective_pairing rest))
    as (Hsame & Hlen & Hruns & _).
  split; [vm_compute; reflexivity|].
  split; [exact (Hsame 0%nat _ eq_refl eq_refl)|].
  split; [exact (Hsame 2%nat _ eq_refl eq_refl)|].
  split; [exact Hlen | exact Hruns].
Defined.

(** C2: outside any cluster the in-cluster configuration cannot be
    resolved; on a pod the same configuration then resolves. *)
Lemma getAPIConfig_failure_not_cached_witness :
  let failed := getAPIConfig Sample.bare (mkRef 1 Sample.inCluster) "/" emptyStore in
  failed.1 = Err (errCreateClient "" errNoHost) /\
  configMap failed.2 = configMap emptyStore /\
  exists v st2,
    getAPIConfig Sample.pod (mkRef 2 Sample.inCluster) "/" failed.2 = (Ok v, st2) /\
    heap st2 !! v = Some Sample.context /\
    configMap st2 !! Sample.inCluster = Some v.
Proof.
  intros failed.
  split; [vm_compute; reflexivity|].
  destruct (getAPIConfig_failure_not_cached Sample.bare
              (mkRef 1 Sample.inCluster) "/" emptyStore failed.2
              (errCreateClient "" errNoHost)
              (pair_of_fst failed _ ltac:(vm_compute; reflexivity)))
    as (Hmap & _ & Hretry).
  split; [exact Hmap|].
  destruct (Hretry Sample.pod (mkRef 2 Sample.inCluster) "/"
              (Sample.mkAuth "" "" : @Config Sample.platform) Sample.podClient
              eq_refl ltac:(vm_compute; reflexivity)
              ltac:(vm_compute; reflexivity))
    as (v & st2 & Hget & Hheap & _ & Hcached).
  exists v, st2. split; [exact Hget|]. split; [exact Hheap | exact Hcached].
Defined.

(** C10 on a pod: the in-cluster configuration with basic-auth credentials
    resolves to what the one without them resolves to, the service-account
    token and CA. *)
Lemma newAPIConfig_in_cluster_ignores_auth_witness :
  (newAPIConfig Sample.pod (mkRef 1 Sample.inClusterWithAuth) "/" emptyStore).1
  = (newAPIConfig Sample.pod (mkRef 2 Sample.inCluster) "/" emptyStore).1 /\
  heap (newAPIConfig Sample.pod (mkRef 1 Sample.inClusterWithAuth) "/" emptyStore).2
  = heap (newAPIConfig Sample.pod (mkRef 2 Sample.inCluster) "/" emptyStore).2 /\
  exists cfg,
    heap (newAPIConfig Sample.pod (mkRef 1 Sample.inClusterWithAuth) "/"
                       emptyStore).2 !! 0%nat = Some cfg /\
    authConfig cfg
    = Some (Sample.mkAuth "Bearer s3cr3t" "-----BEGIN CERTIFICATE-----"
            : @Config Sample.platform).
Proof.
  destruct (newAPIConfig_in_cluster_ignores_auth Sample.pod
              (mkRef 1 Sample.inClusterWithAuth) (mkRef 2 Sample.inCluster)
              "/" emptyStore
              (Sample.mkAuth "Basic admin:hunter2" "" : @Config Sample.platform)
              (Sample.mkAuth "" "" : @Config Sample.platform)
              eq_refl eq_refl eq_refl eq_refl
              ltac:(vm_compute; reflexivity) ltac:(vm_compute; reflexivity))
    as (Hres & Hheap & Hsa).
  split; [exact Hres|]. split; [exact Hheap|].
  destruct (Hsa 0%nat
              (newAPIConfig Sample.pod (mkRef 1 Sample.inClusterWithAuth) "/"
                            emptyStore).2
              (pair_of_fst _ _ ltac:(vm_compute; reflexivity)))
    as (acNew & cfg & Hnew & Hcfg & Hauth & _).
  exists cfg. split; [exact Hcfg|].
  rewrite Hauth. f_equal.
  assert (Hsample : NewConfig Sample.pod "/" None "" tokenFilePath
                      (Some (mkTLS caFilePath "" "" "" false))
                    = Ok (Sample.mkAuth "Bearer s3cr3t"
                                        "-----BEGIN CERTIFICATE-----"
                          : @Config Sample.platform))
    by (vm_compute; reflexivity).
  congruence.
Defined.

(** * Further properties of [api.go] *)

(** ** More on strings *)

Section MoreStringFacts.
Import Strings.

Lemma IndexByte_app_None (s1 s2 : string) (c : ascii) :
  IndexByte s1 c = None -> IndexByte s2 c = None ->
  IndexByte (s1 +:+ s2) c = None.
Proof.
  intros H1 H2. induction s1 as [|a s1 IH]; [exact H2|].
  change (String a s1 +:+ s2) with (String a (s1 +:+ s2)).
  cbn [IndexByte] in H1 |- *. destruct (Ascii.eqb a c); [discriminate|].
  destruct (IndexByte s1 c); [discriminate|]. rewrite IH; reflexivity.
Qed.

Lemma IndexByte_app_Some (s1 s2 : string) (c : ascii) :
  is_Some (IndexByte s2 c) -> is_Some (IndexByte (s1 +:+ s2) c).
Proof.
  intros H2. induction s1 as [|a s1 IH]; [exact H2|].
  change (String a s1 +:+ s2) with (String a (s1 +:+ s2)).
  cbn [IndexByte]. destruct (Ascii.eqb a c); [eauto|].
  destruct IH as [n ->]. cbn. eauto.
Qed.

Lemma IndexByte_lowercase_colon (s : string) :
  is_Some (IndexByte s ":"%char) ->
  is_Some (IndexByte (lowercase s) ":"%char).
Proof.
  induction s as [|a s IH]; [exact id|].
  cbn [IndexByte lowercase]. destruct (Ascii.eqb a ":") eqn:Ha.
  - apply Ascii.eqb_eq in Ha. subst a. intros _. cbn. eauto.
  - intros Hs. destruct (Ascii.eqb (lowerByte a) ":"); [eauto|].
    destruct (IndexByte s ":") as [n|]; [|destruct Hs; discriminate].
    destruct IH as [m ->]; [eauto|]. cbn. eauto.
Qed.

(** A joined host and port always has a colon in it. *)
Lemma JoinHostPort_colon (host port : string) :
  is_Some (IndexByte (Net.JoinHostPort host port) ":"%char).
Proof.
  unfold Net.JoinHostPort. case_bool_decide as Hh.
  - change ("[" +:+ host +:+ "]:" +:+ port)
      with (String "["%char (host +:+ "]:" +:+ port)).
    cbn [IndexByte]. change (Ascii.eqb "[" ":") with false. cbn match.
    destruct (IndexByte_app_Some host ("]:" +:+ port) ":"%char) as [n ->];
      [cbn; eauto|]. cbn. eauto.
  - apply IndexByte_app_Some. cbn. eauto.
Qed.

(** A joined host and port has no byte that its parts do not have, the
    brackets and the colon apart. *)
Lemma JoinHostPort_free (host port : string) (c : ascii) :
  c <> "["%char -> c <> "]"%char -> c <> ":"%char ->
  IndexByte host c = None -> IndexByte port c = None ->
  IndexByte (Net.JoinHostPort host port) c = None.
Proof.
  intros H1 H2 H3 Hh Hp.
  assert (E : forall a, a <> c -> Ascii.eqb a c = false)
    by (intros a Ha; apply Ascii.eqb_neq; exact Ha).
  unfold Net.JoinHostPort. case_bool_decide.
  - change ("[" +:+ host +:+ "]:" +:+ port)
      with (String "["%char (host +:+ String "]"%char (String ":"%char port))).
    cbn [IndexByte]. rewrite (E "["%char) by congruence.
    rewrite IndexByte_app_None; [reflexivity | exact Hh |].
    cbn [IndexByte]. rewrite (E "]"%char), (E ":"%char) by congruence.
    rewrite Hp. reflexivity.
  - apply IndexByte_app_None; [exact Hh|].
    change (":" +:+ port) with (String ":"%char port).
    cbn [IndexByte]. rewrite (E ":"%char) by congruence.
    rewrite Hp. reflexivity.
Qed.

(** The authority of ["https://"] followed by text without slash or
    question mark is that text, in lower case. *)
Lemma Host_https (rest : string) :
  IndexByte rest "/"%char = None -> IndexByte rest "?"%char = None ->
  URI.Host (URI.Update ("https://" +:+ rest)) = lowercase rest.
Proof.
  intros Hslash Hq.
  unfold URI.Update, URI.Parse, URI.splitHostURI, Contains.
  cbv [String.append]. fold String.append. cbn.
  rewrite bool_decide_eq_false_2 by done.
  rewrite !bool_decide_eq_true_2 by done.
  rewrite Hslash, Hq. reflexivity.
Qed.

End MoreStringFacts.

(** ** More on [newHostClient] *)

Section MoreOnNewHostClient.
Context `{Platform}.

(** Only the discovery of the first block can fail. *)
Lemma newHostClient_Err_in_cluster (w : World) (srv : string)
    (a : option Config) (e : error) :
  newHostClient w srv a = Err e -> srv = "".
Proof.
  intros Herr. destruct (decide (srv = "")) as [Hs|Hs]; [exact Hs|].
  unfold newHostClient in Herr. rewrite (discover_explicit w srv a Hs) in Herr.
  discriminate.
Qed.

(** With an API server configured the call succeeds and hands the server
    and the auth config on. *)
Lemma newHostClient_explicit_Ok (w : World) (srv : string)
    (a : option Config) :
  srv <> "" ->
  exists hcv,
    newHostClient w srv a = Ok hcv /\ apiServer hcv = srv /\ ac hcv = a.
Proof.
  intros Hsrv. unfold newHostClient. rewrite (discover_explicit w srv a Hsrv).
  eexists. split; [reflexivity|]. split; reflexivity.
Qed.

(** The host:port of a host client has a colon in it. *)
Lemma hcHostPort_has_colon (w : World) (srv : string) (a : option Config)
    (hcv : hcValue) :
  newHostClient w srv a = Ok hcv ->
  Strings.Contains (hcHostPort hcv) ":" = true.
Proof.
  intros Hok. destruct (newHostClient_Ok _ _ _ _ Hok) as (_ & Hhp & _).
  rewrite Hhp.
  destruct (Strings.Contains (URI.Host _) ":") eqn:Hc; cbn [negb].
  - exact Hc.
  - change ":"%string with (String ":"%char ""). rewrite Contains_byte.
    apply bool_decide_eq_true_2, JoinHostPort_colon.
Qed.

(** X1.  [newHostClient] fails only when no API server is configured, and
    then for exactly one of three reasons, looked at in this order: the
    host variable is empty, the port variable is empty (the error carries
    the host), or the service-account auth config cannot be built (the
    error wraps the cause). *)
Theorem newHostClient_fails_iff (w : World) (srv : string)
    (a : option Config) (e : error) :
  newHostClient w srv a = Err e <->
  srv = "" /\
  ((Getenv w "KUBERNETES_SERVICE_HOST" = "" /\ e = errNoHost) \/
   (Getenv w "KUBERNETES_SERVICE_HOST" <> "" /\
    Getenv w "KUBERNETES_SERVICE_PORT" = "" /\
    e = errNoPort (Getenv w "KUBERNETES_SERVICE_HOST")) \/
   (Getenv w "KUBERNETES_SERVICE_HOST" <> "" /\
    Getenv w "KUBERNETES_SERVICE_PORT" <> "" /\
    exists err,
      NewConfig w "/" None "" tokenFilePath
                (Some (mkTLS caFilePath "" "" "" false)) = Err err /\
      e = errServiceAccount err)).
Proof.
  unfold newHostClient, discover.
  destruct (decide (srv = "")) as [->|Hsrv].
  - rewrite bool_decide_eq_true_2 by reflexivity.
    destruct (decide (Getenv w "KUBERNETES_SERVICE_HOST" = "")) as [Hh|Hh].
    { rewrite (bool_decide_eq_true_2 _ (proj2 (len_zero _) Hh)).
      split.
      - intros [= <-]. auto.
      - intros (_ & [(_ & ->)|[(Hne & _)|(Hne & _)]]);
          [reflexivity | contradiction | contradiction]. }
    rewrite (bool_decide_eq_false_2 (Strings.len _ = 0%nat))
      by (rewrite len_zero; exact Hh).
    destruct (decide (Getenv w "KUBERNETES_SERVICE_PORT" = "")) as [Hp|Hp].
    { rewrite (bool_decide_eq_true_2 _ (proj2 (len_zero _) Hp)).
      split.
      - intros [= <-]. auto 6.
      - intros (_ & [(He & _)|[(_ & _ & ->)|(_ & Hne & _)]]);
          [contradiction | reflexivity | contradiction]. }
    rewrite (bool_decide_eq_false_2 (Strings.len _ = 0%nat))
      by (rewrite len_zero; exact Hp).
    destruct (NewConfig w "/" None "" tokenFilePath _) as [acNew|err].
    + split; [discriminate|].
      intros (_ & [(He & _)|[(_ & He & _)|(_ & _ & err & Herr & _)]]);
        [contradiction | contradiction | discriminate].
    + split.
      * intros [= <-]. split; [reflexivity|]. right. right. eauto.
      * intros (_ & [(He & _)|[(_ & He & _)|(_ & _ & err' & [= <-] & ->)]]);
          [contradiction | contradiction | reflexivity].
  - rewrite bool_decide_eq_false_2 by (rewrite len_zero; exact Hsrv).
    split; [discriminate|]. intros [Hs _]. contradiction.
Qed.

(** X2.  With an API server configured, [newHostClient] always succeeds and
    consults neither the environment nor the files: the result is the same
    in every world, and it hands the server URL and the auth config on as
    they were given. *)
Theorem newHostClient_explicit (srv : string) (a : option Config) :
  srv <> "" ->
  exists hcv,
    (forall w : World, newHostClient w srv a = Ok hcv) /\
    apiServer hcv = srv /\
    ac hcv = a.
Proof.
  intros Hsrv. eexists. split; [|split].
  - intros w. unfold newHostClient. rewrite (discover_explicit w srv a Hsrv).
    reflexivity.
  - reflexivity.
  - reflexivity.
Qed.

(** X3.  The client speaks TLS exactly when the scheme of the resolved
    server URL is https, and it has a TLS configuration exactly when it
    speaks TLS and there is an auth config, from which the configuration is
    then built.  Over any other scheme no TLS configuration is set, whatever
    the auth config says. *)
Theorem newHostClient_tls (w : World) (srv : string) (a : option Config)
    (hcv : hcValue) :
  newHostClient w srv a = Ok hcv ->
  (IsTLS (hc hcv) = true <->
   URI.Scheme (URI.Update (apiServer hcv)) = "https") /\
  (forall t, TLSConfigOf (hc hcv) = Some t <->
             IsTLS (hc hcv) = true /\
             exists a', ac hcv = Some a' /\ t = NewTLSConfig a').
Proof.
  intros Hok. destruct (newHostClient_Ok _ _ _ _ Hok) as (_ & _ & ->).
  cbn [IsTLS TLSConfigOf]. split.
  - apply bool_decide_eq_true.
  - intros t. destruct (ac hcv) as [a'|];
      destruct (bool_decide (URI.Scheme _ = "https")); split;
      first [ discriminate
            | intros [= <-]; eauto
            | intros (Htls & a'' & Ha & ->);
              first [ discriminate Htls | discriminate Ha
                    | injection Ha as <-; reflexivity ] ].
Qed.

(** X4.  The address a client is bound to always has a colon in it: either
    the host component brought one, or a default port was appended. *)
Theorem newHostClient_address_has_colon (w : World) (srv : string)
    (a : option Config) (hcv : hcValue) :
  newHostClient w srv a = Ok hcv ->
  Strings.Contains (Addr (hc hcv)) ":" = true.
Proof.
  intros Hok. pose proof (hcHostPort_has_colon _ _ _ _ Hok) as Hcolon.
  destruct (newHostClient_Ok _ _ _ _ Hok) as (_ & _ & ->).
  cbn [Addr]. exact Hcolon.
Qed.

(** On a pod with both variables set and the service-account files loaded,
    the server is ["https://"] followed by the joined host and port. *)
Lemma newHostClient_pod (w : World) (a : option Config)
    (host port : string) (acNew : Config) :
  env w !! "KUBERNETES_SERVICE_HOST" = Some host -> host <> "" ->
  env w !! "KUBERNETES_SERVICE_PORT" = Some port -> port <> "" ->
  NewConfig w "/" None "" tokenFilePath
            (Some (mkTLS caFilePath "" "" "" false)) = Ok acNew ->
  exists hcv,
    newHostClient w "" a = Ok hcv /\
    apiServer hcv = "https://" +:+ Net.JoinHostPort host port /\
    ac hcv = Some acNew.
Proof.
  intros Hh Hhne Hp Hpne Hnew.
  unfold newHostClient, discover.
  rewrite (Getenv_set _ _ _ Hh), (Getenv_set _ _ _ Hp). cbn.
  rewrite (bool_decide_eq_false_2 (Strings.len host = 0%nat))
    by (rewrite len_zero; exact Hhne).
  rewrite (bool_decide_eq_false_2 (Strings.len port = 0%nat))
    by (rewrite len_zero; exact Hpne).
  rewrite Hnew. eexists. split; [reflexivity|]. split; reflexivity.
Qed.

(** X5.  On a pod whose host and port variables hold no slash and no
    question mark, the client is bound to the advertised host and port, in
    lower case: an IPv6 host goes in brackets, and no default port takes
    the place of the advertised one. *)
Theorem newHostClient_in_cluster_address (w : World) (a : option Config)
    (host port : string) (acNew : Config) :
  env w !! "KUBERNETES_SERVICE_HOST" = Some host -> host <> "" ->
  env w !! "KUBERNETES_SERVICE_PORT" = Some port -> port <> "" ->
  Strings.IndexByte host "/"%char = None ->
  Strings.IndexByte host "?"%char = None ->
  Strings.IndexByte port "/"%char = None ->
  Strings.IndexByte port "?"%char = None ->
  NewConfig w "/" None "" tokenFilePath
            (Some (mkTLS caFilePath "" "" "" false)) = Ok acNew ->
  exists hcv,
    newHostClient w "" a = Ok hcv /\
    Addr (hc hcv) = Strings.lowercase (Net.JoinHostPort host port).
Proof.
  intros Hh Hhne Hp Hpne Hhs Hhq Hps Hpq Hnew.
  destruct (newHostClient_pod w a host port acNew Hh Hhne Hp Hpne Hnew)
    as (hcv & Hok & Hsrv & _).
  exists hcv. split; [exact Hok|].
  destruct (newHostClient_Ok _ _ _ _ Hok) as (_ & Hhp & ->).
  cbn [Addr]. rewrite Hhp, Hsrv.
  rewrite Host_https
    by (apply JoinHostPort_free; solve [discriminate | assumption]).
  assert (Hcolon : Strings.Contains
                     (Strings.lowercase (Net.JoinHostPort host port)) ":"
                   = true).
  { change ":"%string with (String ":"%char ""). rewrite Contains_byte.
    apply bool_decide_eq_true_2, IndexByte_lowercase_colon, JoinHostPort_colon. }
  rewrite Hcolon. reflexivity.
Qed.

End MoreOnNewHostClient.

(** ** More on [getAPIResponse] *)

Section MoreOnFetch.
Context `{Platform}.
Variable do : HostClient -> Request -> result Response.
Variables (cfg : apiConfig) (role path : string).

(** X6.  [getAPIResponse] fails in exactly three ways, and every one of its
    errors carries the request URL: the request could not be made (the error
    wraps the transport's), the gzip body could not be decoded (the error
    wraps the decoder's), or the status is not 200 (the error carries the
    status and the decoded body). *)
Theorem getAPIResponse_errors (e : error) :
  getAPIResponse do cfg role path = Err e ->
  carries e (ArgString (requestURLOf cfg role path)) /\
  ((exists err,
      do (client cfg) (requestOf cfg role path) = Err err /\
      e = errFetch (requestURLOf cfg role path) err) \/
   (exists resp err,
      do (client cfg) (requestOf cfg role path) = Ok resp /\
      Peek (respHeader resp) "Content-Encoding" = "gzip" /\
      AppendGunzipBytes "" (Body resp) = Err err /\
      e = errUngzip (requestURLOf cfg role path) err) \/
   (exists resp data,
      do (client cfg) (requestOf cfg role path) = Ok resp /\
      decodeBody (requestURLOf cfg role path) resp = Ok data /\
      StatusCode resp <> 200 /\
      e = errStatus (requestURLOf cfg role path) (StatusCode resp) data)).
Proof.
  unfold getAPIResponse.
  destruct (do (client cfg) (requestOf cfg role path)) as [resp|err] eqn:Hdo.
  - destruct (decodeBody _ resp) as [data|err] eqn:Hdec.
    + case_bool_decide as Hst; [|discriminate]. intros [= <-]. split.
      * unfold carries, errStatus; cbn [args_of]. set_solver.
      * right. right. eauto 6.
    + intros [= <-]. unfold decodeBody in Hdec.
      case_bool_decide as Hce; [|discriminate].
      destruct (AppendGunzipBytes "" (Body resp)) as [d|err'] eqn:Hun;
        [discriminate|].
      injection Hdec as <-. split.
      * unfold carries, errUngzip; cbn [args_of]. set_solver.
      * right. left. eauto 6.
  - intros [= <-]. split.
    + unfold carries, errFetch; cbn [args_of]. set_solver.
    + left. eauto.
Qed.

(** X7.  [getAPIResponse] returns data exactly when the request was
    answered, the body decoded to that data and the status is 200. *)
Theorem getAPIResponse_succeeds_iff (data : string) :
  getAPIResponse do cfg role path = Ok data <->
  exists resp,
    do (client cfg) (requestOf cfg role path) = Ok resp /\
    decodeBody (requestURLOf cfg role path) resp = Ok data /\
    StatusCode resp = 200.
Proof.
  unfold getAPIResponse. split.
  - destruct (do (client cfg) (requestOf cfg role path)) as [resp|err]
      eqn:Hdo; [|discriminate].
    destruct (decodeBody _ resp) as [d|err] eqn:Hdec; [|discriminate].
    case_bool_decide as Hst; [discriminate|]. intros [= <-].
    exists resp. split; [reflexivity|]. split; [exact Hdec|].
    destruct (decide (StatusCode resp = 200)) as [Heq|Hne];
      [exact Heq | contradict Hst; exact Hne].
  - intros (resp & -> & -> & Hst).
    rewrite bool_decide_eq_false_2; [reflexivity|].
    intros Hne. apply Hne, Hst.
Qed.

End MoreOnFetch.

Section RequestFacts.
Context `{Platform}.
Variables (cfg : apiConfig) (role path : string).

(** The headers of the request, written out. *)
Lemma requestOf_header_list :
  reqHeader (requestOf cfg role path) =
    match authConfig cfg with
    | Some a =>
        if bool_decide (Authorization a <> "")
        then [("Accept-Encoding", "gzip"); ("Authorization", Authorization a)]
        else [("Accept-Encoding", "gzip")]
    | None => [("Accept-Encoding", "gzip")]
    end.
Proof.
  unfold requestOf. cbn [reqHeader].
  destruct (authConfig cfg) as [a|]; [|reflexivity].
  destruct (bool_decide (Authorization a <> "")); reflexivity.
Qed.

Lemma requestOf_authorization :
  Peek (reqHeader (requestOf cfg role path)) "Authorization"
  = default "" (Authorization <$> authConfig cfg).
Proof.
  rewrite requestOf_header_list.
  destruct (authConfig cfg) as [a|]; [|reflexivity].
  cbn [fmap option_fmap option_map default].
  case_bool_decide as Ha; [reflexivity|]. rewrite Ha. reflexivity.
Qed.

(** X8.  The request asks for gzip, is addressed to the context's host:port
    and has no header besides Accept-Encoding and Authorization.  It is
    authorized with the Authorization value of the context's auth config,
    and when there is no auth config or that value is empty it has no
    Authorization header at all: an empty one is never sent. *)
Theorem requestOf_headers :
  reqHost (requestOf cfg role path) = hostPort cfg /\
  Peek (reqHeader (requestOf cfg role path)) "Accept-Encoding" = "gzip" /\
  Peek (reqHeader (requestOf cfg role path)) "Authorization"
  = default "" (Authorization <$> authConfig cfg) /\
  (forall v, ("Authorization", v) ∈ reqHeader (requestOf cfg role path) ->
             v <> "") /\
  (forall k v, (k, v) ∈ reqHeader (requestOf cfg role path) ->
               k = "Accept-Encoding" \/ k = "Authorization").
Proof.
  split; [reflexivity|]. split; [|split; [apply requestOf_authorization|]].
  - rewrite requestOf_header_list.
    destruct (authConfig cfg) as [a|]; [|reflexivity].
    destruct (bool_decide (Authorization a <> "")); reflexivity.
  - rewrite requestOf_header_list.
    destruct (authConfig cfg) as [a|]; [case_bool_decide as Ha|]; split;
      intros; repeat match goal with
        | Hin : _ ∈ [] |- _ => apply elem_of_nil in Hin; contradiction
        | Hin : _ ∈ _ :: _ |- _ => apply elem_of_cons in Hin as [Hin|Hin]
        end; simplify_eq; auto.
Qed.

End RequestFacts.


(** ** More on [newAPIConfig] *)

Section MoreOnNewAPIConfig.
Context `{Platform}.

(** In-cluster, the auth config of the host client is the service
    account's. *)
Lemma newHostClient_in_cluster_ac (w : World) (a : option Config)
    (hcv : hcValue) :
  newHostClient w "" a = Ok hcv ->
  exists acNew,
    NewConfig w "/" None "" tokenFilePath
              (Some (mkTLS caFilePath "" "" "" false)) = Ok acNew /\
    ac hcv = Some acNew.
Proof.
  intros Hok. destruct (newHostClient_Ok _ _ _ _ Hok) as (Hdisc & _).
  unfold discover in Hdisc.
  rewrite bool_decide_eq_true_2 in Hdisc by reflexivity.
  repeat case_bool_decide; try discriminate.
  destruct (NewConfig w "/" None "" tokenFilePath _) as [acNew|err];
    [|discriminate].
  injection Hdisc as _ Hac. exists acNew. split; [reflexivity|].
  symmetry. exact Hac.
Qed.

(** X9.  [newAPIConfig] fails in exactly two ways: the explicit auth
    settings do not parse, whatever the API server setting and the
    environment, or they parse, no API server is configured and the host
    client cannot be made.  With an API server configured only the first
    can happen.  A failed run allocates no object and leaves the cache as
    it is. *)
Theorem newAPIConfig_fails_iff (w : World) (sdc : SDConfigRef)
    (baseDir : string) (st : Store) (e : error) :
  ((newAPIConfig w sdc baseDir st).1 = Err e <->
   (exists err,
      NewConfig w baseDir (BasicAuth sdc) (BearerToken sdc)
                (BearerTokenFile sdc) (TLS sdc) = Err err /\
      e = errParseAuth err) \/
   (exists ac0 err,
      NewConfig w baseDir (BasicAuth sdc) (BearerToken sdc)
                (BearerTokenFile sdc) (TLS sdc) = Ok ac0 /\
      APIServer sdc = "" /\
      newHostClient w "" (Some ac0) = Err err /\
      e = errCreateClient "" err)) /\
  ((newAPIConfig w sdc baseDir st).1 = Err e ->
   heap (newAPIConfig w sdc baseDir st).2 = heap st /\
   configMap (newAPIConfig w sdc baseDir st).2 = configMap st).
Proof.
  rewrite newAPIConfig_run.
  destruct (NewConfig w baseDir _ _ _ _) as [ac0|err] eqn:Hparse.
  - destruct (newHostClient w (APIServer sdc) (Some ac0)) as [hcv|err]
      eqn:Hclient; cbn [fst snd heap configMap].
    + split; [|discriminate]. split; [discriminate|].
      intros [(err & [=] & _)|(ac1 & err & [= <-] & Hsrv & Hfail & _)].
      rewrite Hsrv in Hclient. congruence.
    + assert (Hsrv : APIServer sdc = "")
        by exact (newHostClient_Err_in_cluster _ _ _ _ Hclient).
      split; [|auto]. split.
      * intros [= <-]. right. exists ac0, err. rewrite <- Hsrv. auto.
      * intros [(err' & [=] & _)|(ac1 & err' & [= <-] & _ & Hfail & ->)].
        rewrite Hsrv in Hclient. congruence.
  - cbn [fst snd heap configMap]. split; [|auto]. split.
    + intros [= <-]. left. eauto.
    + intros [(err' & [= <-] & ->)|(ac1 & err' & [=] & _)]. reflexivity.
Qed.

(** X10.  With an API server configured, a configuration whose auth
    settings parse always resolves, in any world, to a fresh object that
    keeps the server URL as it is written, carries the auth config parsed
    from the explicit settings, and has the namespaces and selectors of the
    configuration. *)
Theorem newAPIConfig_explicit (w : World) (sdc : SDConfigRef)
    (baseDir : string) (st : Store) (ac0 : Config) :
  APIServer sdc <> "" ->
  NewConfig w baseDir (BasicAuth sdc) (BearerToken sdc)
            (BearerTokenFile sdc) (TLS sdc) = Ok ac0 ->
  exists cfg,
    (newAPIConfig w sdc baseDir st).1 = Ok (length (heap st)) /\
    heap (newAPIConfig w sdc baseDir st).2 = heap st ++ [cfg] /\
    server cfg = APIServer sdc /\
    authConfig cfg = Some ac0 /\
    namespaces cfg = Names (NamespacesOf sdc) /\
    selectors cfg = Selectors sdc.
Proof.
  intros Hsrv Hparse.
  destruct (newHostClient_explicit_Ok w (APIServer sdc) (Some ac0) Hsrv)
    as (hcv & Hok & Hs & Ha).
  rewrite newAPIConfig_run, Hparse, Hok. cbn [fst snd heap].
  exists (apiConfigOf sdc hcv). unfold apiConfigOf; cbn.
  repeat split; assumption.
Qed.

(** X11.  In a context built by [newAPIConfig], the host:port is the
    address its client is bound to and has a colon in it, so every request
    made with the context names in its Host the address it is sent to. *)
Theorem newAPIConfig_host_is_client_address (w : World) (sdc : SDConfigRef)
    (baseDir : string) (st st' : Store) (v : nat) :
  newAPIConfig w sdc baseDir st = (Ok v, st') ->
  exists cfg,
    heap st' !! v = Some cfg /\
    hostPort cfg = Addr (client cfg) /\
    Strings.Contains (hostPort cfg) ":" = true /\
    forall role path, reqHost (requestOf cfg role path) = Addr (client cfg).
Proof.
  rewrite newAPIConfig_run.
  destruct (NewConfig w baseDir _ _ _ _) as [ac0|err]; [|discriminate].
  destruct (newHostClient w _ _) as [hcv|err] eqn:Hclient; [|discriminate].
  intros [= <- <-]. cbn [heap].
  exists (apiConfigOf sdc hcv). split.
  { rewrite lookup_app_r by reflexivity. rewrite Nat.sub_diag. reflexivity. }
  pose proof (hcHostPort_has_colon _ _ _ _ Hclient) as Hcolon.
  destruct (newHostClient_Ok _ _ _ _ Hclient) as (_ & _ & Hhc).
  assert (Haddr : hostPort (apiConfigOf sdc hcv)
                  = Addr (client (apiConfigOf sdc hcv)))
    by (unfold apiConfigOf; cbn; rewrite Hhc; reflexivity).
  split; [exact Haddr|]. split; [exact Hcolon|].
  intros role path. exact Haddr.
Qed.

(** X12.  With no API server configured, the requests made with the
    resolved context are authorized with the Authorization value of the
    service account's auth config, whatever credentials the configuration
    carries. *)
Theorem newAPIConfig_in_cluster_authorization (w : World)
    (sdc : SDConfigRef) (baseDir : string) (st st' : Store) (v : nat) :
  APIServer sdc = "" ->
  newAPIConfig w sdc baseDir st = (Ok v, st') ->
  exists cfg acNew,
    heap st' !! v = Some cfg /\
    NewConfig w "/" None "" tokenFilePath
              (Some (mkTLS caFilePath "" "" "" false)) = Ok acNew /\
    server cfg = "https://" +:+ Net.JoinHostPort
                                  (Getenv w "KUBERNETES_SERVICE_HOST")
                                  (Getenv w "KUBERNETES_SERVICE_PORT") /\
    forall role path,
      Peek (reqHeader (requestOf cfg role path)) "Authorization"
      = Authorization acNew.
Proof.
  intros Hsrv. rewrite newAPIConfig_run, Hsrv.
  destruct (NewConfig w baseDir _ _ _ _) as [ac0|err]; [|discriminate].
  destruct (newHostClient w "" (Some ac0)) as [hcv|err] eqn:Hclient;
    [|discriminate].
  intros [= <- <-]. cbn [heap].
  destruct (newHostClient_in_cluster_ac _ _ _ Hclient) as (acNew & Hnew & Hac).
  exists (apiConfigOf sdc hcv), acNew. split.
  { rewrite lookup_app_r by reflexivity. rewrite Nat.sub_diag. reflexivity. }
  split; [exact Hnew|]. split.
  - destruct (newHostClient_Ok _ _ _ _ Hclient) as (Hdisc & _).
    unfold discover in Hdisc.
    rewrite bool_decide_eq_true_2 in Hdisc by reflexivity.
    repeat case_bool_decide; try discriminate.
    destruct (NewConfig w "/" None "" tokenFilePath _); [|discriminate].
    injection Hdisc as Hs _. unfold apiConfigOf; cbn. symmetry. exact Hs.
  - intros role path. rewrite requestOf_authorization.
    unfold apiConfigOf; cbn. rewrite Hac. reflexivity.
Qed.

End MoreOnNewAPIConfig.

(** ** The further properties on the sample platform *)

(** X2 on an https server with a port. *)
Lemma newHostClient_explicit_witness :
  exists hcv,
    (forall w : World,
       newHostClient w "https://k8s.example.com:6443" None = Ok hcv) /\
    apiServer hcv = "https://k8s.example.com:6443" /\
    ac hcv = (None : option (@Config Sample.platform)).
Proof.
  exact (newHostClient_explicit "https://k8s.example.com:6443" None
           ltac:(discriminate)).
Defined.

(** X3 on the client of a pod, which speaks TLS with the service account's
    CA, and on a plain http client. *)
Lemma newHostClient_tls_witness :
  ((IsTLS (hc Sample.podClient) = true <->
    URI.Scheme (URI.Update (apiServer Sample.podClient)) = "https") /\
   (forall t, TLSConfigOf (hc Sample.podClient) = Some t <->
              IsTLS (hc Sample.podClient) = true /\
              exists a', ac Sample.podClient = Some a' /\
                         t = NewTLSConfig a')) /\
  IsTLS (hc Sample.httpClient) = false.
Proof.
  split; [|reflexivity].
  exact (newHostClient_tls Sample.pod "" None Sample.podClient
           ltac:(vm_compute; reflexivity)).
Defined.

(** X4 on an IPv6 literal without a port and on a host without one. *)
Lemma newHostClient_address_has_colon_witness :
  Strings.Contains (Addr (hc Sample.ipv6Client)) ":" = true /\
  Strings.Contains (Addr (hc Sample.httpClient)) ":" = true.
Proof.
  split.
  - exact (newHostClient_address_has_colon Sample.bare "https://[::1]" None
             Sample.ipv6Client ltac:(vm_compute; reflexivity)).
  - exact (newHostClient_address_has_colon Sample.bare
             "http://api.example.com" None
             Sample.httpClient ltac:(vm_compute; reflexivity)).
Defined.

(** X5 on a pod of an IPv6 cluster. *)
Lemma newHostClient_in_cluster_address_witness :
  exists hcv,
    newHostClient Examples.podV6 "" None = Ok hcv /\
    Addr (hc hcv) = "[fd00::1]:443".
Proof.
  destruct (newHostClient_in_cluster_address Examples.podV6 None
              "FD00::1" "443"
              (Sample.mkAuth "Bearer s3cr3t" "-----BEGIN CERTIFICATE-----"
               : @Config Sample.platform)
              ltac:(vm_compute; reflexivity) ltac:(discriminate)
              ltac:(vm_compute; reflexivity) ltac:(discriminate)
              ltac:(vm_compute; reflexivity) ltac:(vm_compute; reflexivity)
              ltac:(vm_compute; reflexivity) ltac:(vm_compute; reflexivity)
              ltac:(vm_compute; reflexivity))
    as (hcv & Hok & Haddr).
  exists hcv. split; [exact Hok|].
  rewrite Haddr. vm_compute. reflexivity.
Defined.

(** X6 on a network that is down. *)
Lemma getAPIResponse_errors_witness :
  getAPIResponse Examples.unreachable Sample.context "pod" "/api/v1/pods"
  = Err (errFetch "https://10.0.0.1:6443/api/v1/pods"
                  (Errorf "dial tcp: connection refused" [])) /\
  carries (errFetch "https://10.0.0.1:6443/api/v1/pods"
                    (Errorf "dial tcp: connection refused" []))
          (ArgString (requestURLOf Sample.context "pod" "/api/v1/pods")).
Proof.
  assert (Herr : getAPIResponse Examples.unreachable Sample.context "pod"
                                "/api/v1/pods"
                 = Err (errFetch "https://10.0.0.1:6443/api/v1/pods"
                                 (Errorf "dial tcp: connection refused" [])))
    by (vm_compute; reflexivity).
  split; [exact Herr|].
  exact (proj1 (getAPIResponse_errors Examples.unreachable Sample.context
                  "pod" "/api/v1/pods" _ Herr)).
Defined.

(** X9 on a pod, for a configuration whose token file does not exist. *)
Lemma newAPIConfig_fails_iff_witness :
  (newAPIConfig Sample.pod (mkRef 1 Examples.brokenAuth) "/" emptyStore).1
  = Err (errParseAuth (Errorf "cannot read %q" [ArgString "/nonexistent/token"])) /\
  heap (newAPIConfig Sample.pod (mkRef 1 Examples.brokenAuth) "/" emptyStore).2
  = heap emptyStore.
Proof.
  assert (Hfail : (newAPIConfig Sample.pod (mkRef 1 Examples.brokenAuth) "/"
                                emptyStore).1
                  = Err (errParseAuth
                           (Errorf "cannot read %q"
                                   [ArgString "/nonexistent/token"]))).
  { apply (proj1 (newAPIConfig_fails_iff Sample.pod
                    (mkRef 1 Examples.brokenAuth) "/" emptyStore _)).
    left. eexists. split; [vm_compute; reflexivity | reflexivity]. }
  split; [exact Hfail|].
  exact (proj1 (proj2 (newAPIConfig_fails_iff Sample.pod
                         (mkRef 1 Examples.brokenAuth) "/" emptyStore _)
                      Hfail)).
Defined.

(** X10 outside any cluster, for a configuration naming its API server. *)
Lemma newAPIConfig_explicit_witness :
  exists cfg,
    (newAPIConfig Sample.bare (mkRef 1 Examples.external) "/" emptyStore).1
    = Ok 0%nat /\
    heap (newAPIConfig Sample.bare (mkRef 1 Examples.external) "/" emptyStore).2
    = [cfg] /\
    server cfg = "https://k8s.example.com:6443" /\
    authConfig cfg = Some (Sample.mkAuth "Bearer t0ken" ""
                           : @Config Sample.platform) /\
    namespaces cfg = ["default"] /\
    selectors cfg = [mkSelector "pod" "app=web" ""].
Proof.
  exact (newAPIConfig_explicit Sample.bare (mkRef 1 Examples.external) "/"
           emptyStore
           (Sample.mkAuth "Bearer t0ken" "" : @Config Sample.platform)
           ltac:(discriminate) ltac:(vm_compute; reflexivity)).
Defined.

(** X11 on a pod, for the in-cluster configuration. *)
Lemma newAPIConfig_host_is_client_address_witness :
  exists cfg,
    heap (newAPIConfig Sample.pod (mkRef 1 Sample.inCluster) "/" emptyStore).2
         !! 0%nat = Some cfg /\
    hostPort cfg = Addr (client cfg) /\
    Strings.Contains (hostPort cfg) ":" = true /\
    forall role path, reqHost (requestOf cfg role path) = Addr (client cfg).
Proof.
  exact (newAPIConfig_host_is_client_address Sample.pod
           (mkRef 1 Sample.inCluster) "/" emptyStore _ 0%nat
           (pair_of_fst _ _ ltac:(vm_compute; reflexivity))).
Defined.

(** X12 on a pod, for the in-cluster configuration that carries basic-auth
    credentials: the requests bear the service-account token. *)
Lemma newAPIConfig_in_cluster_authorization_witness :
  exists cfg,
    heap (newAPIConfig Sample.pod (mkRef 1 Sample.inClusterWithAuth) "/"
                       emptyStore).2 !! 0%nat = Some cfg /\
    server cfg = "https://10.0.0.1:6443" /\
    forall role path,
      Peek (reqHeader (requestOf cfg role path)) "Authorization"
      = "Bearer s3cr3t".
Proof.
  destruct (newAPIConfig_in_cluster_authorization Sample.pod
              (mkRef 1 Sample.inClusterWithAuth) "/" emptyStore _ 0%nat
              eq_refl (pair_of_fst _ _ ltac:(vm_compute; reflexivity)))
    as (cfg & acNew & Hcfg & Hnew & Hsrv & Hauth).
  exists cfg. split; [exact Hcfg|]. split.
  - rewrite Hsrv. vm_compute. reflexivity.
  - intros role path. rewrite Hauth.
    assert (Hsample : NewConfig Sample.pod "/" None "" tokenFilePath
                        (Some (mkTLS caFilePath "" "" "" false))
                      = Ok (Sample.mkAuth "Bearer s3cr3t"
                                          "-----BEGIN CERTIFICATE-----"
                            : @Config Sample.platform))
      by (vm_compute; reflexivity).
    rewrite Hsample in Hnew. injection Hnew as <-. reflexivity.
Defined.

(** X1 on a pod whose service-account files are not mounted. *)
Lemma newHostClient_fails_iff_witness :
  newHostClient Examples.unmounted "" None
  = Err (errServiceAccount (Errorf "cannot read %q" [ArgString tokenFilePath])).
Proof.
  apply (proj2 (newHostClient_fails_iff Examples.unmounted "" None _)).
  split; [reflexivity|]. right. right.
  split; [vm_compute; discriminate|]. split; [vm_compute; discriminate|].
  eexists. split; [vm_compute; reflexivity | reflexivity].
Defined.

(** X7 on a gzip answer with status 200. *)
Lemma getAPIResponse_succeeds_iff_witness :
  getAPIResponse
    (Sample.answering
       (mkResponse 200 [("Content-Encoding", "gzip")] (Sample.compress "{}")))
    Sample.context "pod" "/api/v1/pods" = Ok "{}".
Proof.
  apply (proj2 (getAPIResponse_succeeds_iff _ Sample.context "pod"
                  "/api/v1/pods" "{}")).
  eexists. split; [reflexivity|]. split; reflexivity.
Defined.

(** X8 on the context of a pod. *)
Lemma requestOf_headers_witness :
  reqHost (requestOf Sample.context "pod" "/api/v1/pods") = "10.0.0.1:6443" /\
  Peek (reqHeader (requestOf Sample.context "pod" "/api/v1/pods"))
       "Accept-Encoding" = "gzip" /\
  Peek (reqHeader (requestOf Sample.context "pod" "/api/v1/pods"))
       "Authorization" = "Bearer s3cr3t".
Proof.
  destruct (requestOf_headers Sample.context "pod" "/api/v1/pods")
    as (Hhost & Hgzip & Hauth & _).
  split; [exact Hhost|]. split; [exact Hgzip | exact Hauth].
Defined.
